(** * lmql: model descriptor resolution and the transformers backend

    A shallow embedding of

      - [src/lmql/api/llm.py]: the [LLM] handle, [LLM.from_descriptor],
        [LLM.generate] and the process-wide default model;
      - [src/lmql/models/lmtp/backends/transformers_model.py]:
        [TransformersLLM.score], [TransformersLLM.generate],
        [TransformersLLM.logits_processors] and
        [TokenStreamerDisguisedAsStoppingCriterion].

    Python objects live in a heap and are named by their location, so
    that object identity can be stated; exceptions are an explicit result
    type; warnings and calls to collaborators that are not part of these
    two files are recorded in a log. *)

From Stdlib Require Import ZArith Ascii String List Bool Lia.
From stdpp Require Import base option list strings gmap pretty.

Local Open Scope string_scope.
Local Open Scope Z_scope.

(** ** Python values, strings and dictionaries *)

Module Py.

(** Heap locations of objects: what [is] compares. *)
Definition loc := positive.

(** The values that flow through keyword arguments. *)
Inductive value :=
| VNone
| VBool (b : bool)
| VInt (z : Z)
| VStr (s : string)
| VRef (l : loc).

#[global] Instance value_eq_dec : EqDecision value.
Proof. solve_decision. Defined.

(** [bool(v)]: Python truthiness. An object without [__bool__] and
    [__len__] is true. *)
Definition truthy (v : value) : bool :=
  match v with
  | VNone => false
  | VBool b => b
  | VInt z => negb (z =? 0)
  | VStr s => negb (String.eqb s "")
  | VRef _ => true
  end.

(** [v is None] *)
Definition is_none (v : value) : bool :=
  match v with VNone => true | _ => false end.

(** *** Strings *)

(** [s.startswith(p)] *)
Definition startswith (s p : string) : bool := String.prefix p s.

(** [s[n:]] for [n >= 0] *)
Fixpoint slice_from (n : nat) (s : string) : string :=
  match n, s with
  | O, _ => s
  | S _, EmptyString => EmptyString
  | S k, String _ s' => slice_from k s'
  end.

(** [s.replace(old, "")] for a non-empty [old]: every occurrence found
    scanning from the left is dropped.  [skip] counts the characters of
    the occurrence under the cursor that are still to be dropped. *)
Fixpoint remove_from (old : string) (skip : nat) (s : string) : string :=
  match s with
  | EmptyString => EmptyString
  | String c s' =>
      match skip with
      | S k => remove_from old k s'
      | O =>
          if String.prefix old s
          then remove_from old (Nat.pred (String.length old)) s'
          else String c (remove_from old O s')
      end
  end.

Definition remove_all (old s : string) : string := remove_from old O s.

(** [sep.join(parts)] *)
Definition join (sep : string) (parts : list string) : string :=
  String.concat sep parts.

(** *** [os.path] (the POSIX flavour, [posixpath]) *)

Definition sep : ascii := "/"%char.

Definition is_sep (c : ascii) : bool := Ascii.eqb c sep.

Fixpoint drop_while {A} (p : A -> bool) (l : list A) : list A :=
  match l with
  | [] => []
  | x :: l' => if p x then drop_while p l' else l
  end.

(** [dirname], on the reversed character list:
    [i = p.rfind('/') + 1; head = p[:i]], then trailing separators are
    stripped unless [head] is empty or made of separators only. *)
Definition dirname_rev (r : list ascii) : list ascii :=
  let head := drop_while (fun c => negb (is_sep c)) r in
  if forallb is_sep head then head else drop_while is_sep head.

Definition os_path_dirname (p : string) : string :=
  string_of_list_ascii (rev (dirname_rev (rev (list_ascii_of_string p)))).

(** [s.endswith('/')] *)
Definition ends_with_sep (s : string) : bool :=
  match rev (list_ascii_of_string s) with
  | c :: _ => is_sep c
  | [] => false
  end.

(** [os.path.join(a, b)] *)
Definition os_path_join (a b : string) : string :=
  if startswith b "/" then b
  else if (String.eqb a "" || ends_with_sep a)%bool then a +:+ b
  else a +:+ "/" +:+ b.

(** *** Dictionaries

    A [dict] keeps its keys in insertion order; assigning to a key that
    is present keeps its place. *)

Definition dict := list (string * value).

Fixpoint dict_get (d : dict) (k : string) : option value :=
  match d with
  | [] => None
  | (k', v) :: d' => if String.eqb k' k then Some v else dict_get d' k
  end.

(** [k in d] *)
Definition dict_in (k : string) (d : dict) : bool :=
  match dict_get d k with Some _ => true | None => false end.

(** [d.get(k, dflt)] *)
Definition dict_get_default (d : dict) (k : string) (dflt : value) : value :=
  match dict_get d k with Some v => v | None => dflt end.

(** [d[k] = v] *)
Fixpoint dict_set (d : dict) (k : string) (v : value) : dict :=
  match d with
  | [] => [(k, v)]
  | (k', v') :: d' =>
      if String.eqb k' k then (k', v) :: d' else (k', v') :: dict_set d' k v
  end.

Definition dict_del (d : dict) (k : string) : dict :=
  List.filter (fun kv => negb (String.eqb (fst kv) k)) d.

(** [d.pop(k, dflt)]: the value and the dictionary that is left. *)
Definition dict_pop (d : dict) (k : string) (dflt : value) : value * dict :=
  (dict_get_default d k dflt, dict_del d k).

(** *** Exceptions

    [Foreign] is an exception raised inside a collaborator and propagated
    unchanged; the others are raised by the embedded code or by the
    interpreter and the tensor library on its behalf. *)
Inductive exn :=
| AssertionError (msg : string)
| AttributeError (msg : string)
| TypeError (msg : string)
| ValueError (msg : string)
| IndexError (msg : string)
| RuntimeError (msg : string)
| Foreign (what : string).

Inductive result (A : Type) :=
| Ok (a : A)
| Raise (e : exn).
Arguments Ok {A} a.
Arguments Raise {A} e.

End Py.

(** ** [lmql/api/llm.py] *)

Module Llm.
Import Py.

(** The adapter constructors that [from_descriptor] dispatches to.  They
    live outside this file; a call is recorded with its arguments.
    [inprocess] is always called with [use_existing_configuration=True]. *)
Inductive adapter_call :=
| openai_model (name : string) (endpoint : value) (kwargs : dict)
| inprocess (name : string) (kwargs : dict)
| lmtp_model (name : string) (endpoint : value) (kwargs : dict).

Definition call_kwargs (c : adapter_call) : dict :=
  match c with
  | openai_model _ _ kw | inprocess _ kw | lmtp_model _ _ kw => kw
  end.

Definition call_name (c : adapter_call) : string :=
  match c with
  | openai_model n _ _ | inprocess n _ | lmtp_model n _ _ => n
  end.

(** What the outside world sees of a resolution. *)
Inductive event :=
| Warn (msg : string)
| Call (c : adapter_call).

(** What a caller may pass as [model_identifier], and what the default
    model cell may hold: a string, an [LLM] object, [None], or anything
    else. *)
Inductive descriptor :=
| DStr (s : string)
| DLLM (l : loc)
| DNone
| DOther.

Section WithCollaborators.

(** The adapter objects, opaque here. *)
Context {Adapter : Type}.

(** class LLM *)
Record LLM := mkLLM {
  model_identifier : string;
  adapter : option Adapter;
  configuration_string : option string
}.

Record state := mkState {
  heap : gmap loc LLM;
  default_model : descriptor;
  log : list event
}.

(** Computations: state passing with exceptions. *)
Definition M (A : Type) : Type := state -> result A * state.

Definition ret {A} (a : A) : M A := fun st => (Ok a, st).

Definition raise {A} (e : exn) : M A := fun st => (Raise e, st).

Definition bind {A B} (m : M A) (k : A -> M B) : M B :=
  fun st =>
    match m st with
    | (Ok a, st') => k a st'
    | (Raise e, st') => (Raise e, st')
    end.

Notation "'let*' x ':=' m 'in' k" := (bind m (fun x => k))
  (at level 10, x pattern, m at level 100, k at level 200).

Definition emit (ev : event) : M unit :=
  fun st => (Ok tt, mkState (heap st) (default_model st) (log st ++ [ev])).

(** The events a computation running from [st] to [st'] has added. *)
Definition emitted (st st' : state) : list event :=
  drop (length (log st)) (log st').

(** [cls(model_identifier, adapter=..., configuration_string=...)]:
    a new object at a location that was not in use. *)
Definition new_LLM (o : LLM) : M loc :=
  fun st =>
    let l := fresh (dom (heap st)) in
    (Ok l, mkState (<[l := o]> (heap st)) (default_model st) (log st)).

(** [LLM.__str__] *)
Definition LLM_str (o : LLM) : string :=
  "lmql.LLM(" +:+ model_identifier o +:+ ", " +:+
  match configuration_string o with Some c => c | None => "None" end +:+ ")".

(** [str(v)], as the f-string [f"{k}={v}"] renders a value. *)
Definition str (h : gmap loc LLM) (v : value) : string :=
  match v with
  | VNone => "None"
  | VBool true => "True"
  | VBool false => "False"
  | VInt z => pretty z
  | VStr s => s
  | VRef l => match h !! l with Some o => LLM_str o | None => "<object>" end
  end.

(** [", ".join([f"{k}={v}" for k, v in kwargs.items()])] *)
Definition render (h : gmap loc LLM) (kwargs : dict) : string :=
  join ", " (map (fun kv => fst kv +:+ "=" +:+ str h (snd kv)) kwargs).

(** [get_default_model()] *)
Definition get_default_model : M descriptor :=
  fun st => (Ok (default_model st), st).

(** [set_default_model(model)] *)
Definition set_default_model (model : descriptor) : M unit :=
  fun st => (Ok tt, mkState (heap st) model (log st)).

(** [lmql.models.aliases.model_name_aliases], a table of this
    repository that [llm.py] imports. *)
Context (model_name_aliases : gmap string string).

(** [os.path.exists] *)
Context (os_path_exists : string -> bool).

(** Running an adapter constructor (and instantiating what it returns):
    an adapter, or the failure it raised. *)
Context (construct : adapter_call -> string + Adapter).

Definition call (c : adapter_call) : M Adapter :=
  let* _ := emit (Call c) in
  match construct c with
  | inr a => ret a
  | inl what => raise (Foreign what)
  end.

Definition llama_cpp_warning : string :=
  "File tokenizer.model not present in the same folder as the model weights. Using default 'huggyllama/llama-7b' tokenizer for all llama.cpp models. To change this, set the 'tokenizer' argument of your lmql.model(...) object.".

(** [model_identifier == "<dynamic>" or model_identifier is None] *)
Definition is_dynamic_or_none (d : descriptor) : bool :=
  match d with
  | DStr s => String.eqb s "<dynamic>"
  | DNone => true
  | _ => false
  end.

(** [LLM.from_descriptor(model_identifier, **kwargs)] *)
Definition from_descriptor (model_identifier : descriptor) (kwargs : dict) : M loc :=
  let* model_identifier :=
    (if is_dynamic_or_none model_identifier then get_default_model
     else ret model_identifier) in
  match model_identifier with
  | DNone | DOther =>
      raise (AssertionError "model_identifier must be a string or LLM object")
  | DLLM l =>
      (* do nothing if already a descriptor *)
      ret l
  | DStr model_identifier =>
      (* check for model name aliases *)
      let model_identifier :=
        match model_name_aliases !! model_identifier with
        | Some aliased => aliased
        | None => model_identifier
        end in
      (* remember original name *)
      let original_name := model_identifier in
      fun st =>
      let configuration_representation := render (heap st) kwargs in
      (* resolve default model *)
      let model_identifier :=
        if String.eqb model_identifier "<dynamic>" then default_model st
        else DStr model_identifier in
      let '(endpoint, kwargs) := dict_pop kwargs "endpoint" VNone in
      match model_identifier with
      | DLLM _ | DNone | DOther =>
          raise (AttributeError "object has no attribute 'startswith'") st
      | DStr model_identifier =>
          if startswith model_identifier "openai/" then
            (let* adapter :=
               call (openai_model (slice_from 7 model_identifier) endpoint kwargs) in
             new_LLM (mkLLM original_name (Some adapter)
                            (Some configuration_representation))) st
          else
            (* special case for 'random' model *)
            let kwargs :=
              if String.eqb model_identifier "random" then
                let kwargs :=
                  dict_set kwargs "tokenizer"
                    (match dict_get kwargs "vocab" with
                     | None => VStr "gpt2"
                     | Some vocab => vocab
                     end) in
                let kwargs := dict_set kwargs "inprocess" (VBool true) in
                dict_set kwargs "async_transport" (VBool true)
              else kwargs in
            (* special case for 'llama.cpp' *)
            (let* kwargs :=
               (if startswith model_identifier "llama.cpp:" then
                  match dict_get kwargs "tokenizer" with
                  | Some tokenizer => ret (dict_set kwargs "tokenizer" tokenizer)
                  | None =>
                      let tokenizer_path :=
                        os_path_join
                          (os_path_dirname (remove_all "llama.cpp:" model_identifier))
                          "tokenizer.model" in
                      if os_path_exists tokenizer_path then
                        ret (dict_set kwargs "tokenizer" (VStr tokenizer_path))
                      else
                        let* _ := emit (Warn llama_cpp_warning) in
                        ret (dict_set kwargs "tokenizer"
                               (dict_get_default kwargs "tokenizer"
                                  (VStr "huggyllama/llama-7b")))
                  end
                else ret kwargs) in
             (* determine endpoint URL *)
             let endpoint :=
               if is_none endpoint then VStr "localhost:8080" else endpoint in
             (* determine model name and if we run in-process *)
             let '(model_identifier, kwargs) :=
               if startswith model_identifier "local:"
               then (slice_from 6 model_identifier,
                     dict_set kwargs "inprocess" (VBool true))
               else (model_identifier, kwargs) in
             let* Model :=
               (if truthy (dict_get_default kwargs "inprocess" (VBool false)) then
                  if dict_in "use_existing_configuration" kwargs then
                    raise (TypeError "got multiple values for keyword argument 'use_existing_configuration'")
                  else call (inprocess model_identifier kwargs)
                else call (lmtp_model model_identifier endpoint kwargs)) in
             new_LLM (mkLLM original_name (Some Model)
                            (Some configuration_representation))) st
      end
  end.

(** [lmql.model(model_identifier, **kwargs)] *)
Definition model (model_identifier : descriptor) (kwargs : dict) : M loc :=
  from_descriptor model_identifier kwargs.

(** The results of a query, opaque here. *)
Context {Res : Type}.

(** [generate_query(prompt, max_tokens=..., **kwargs)], awaited: the
    lazily initialised query behind [generate].  It returns its list of
    results or the failure it raised. *)
Context (generate_query :
           string -> option Z -> dict -> state -> (string + list Res) * state).

(** What [generate] returns: [result[0]] or [result]. *)
Inductive generated :=
| Single (r : Res)
| Several (rs : list Res).

(** The arguments [generate] hands to the query: [kwargs["model"] = self],
    and, when [max_tokens] is given, [kwargs["chunksize"] = max_tokens]
    and [max_tokens + 1]. *)
Definition query_arguments (self : loc) (max_tokens : option Z) (kwargs : dict)
    : dict * option Z :=
  let kwargs := dict_set kwargs "model" (VRef self) in
  match max_tokens with
  | Some n => (dict_set kwargs "chunksize" (VInt n), Some (n + 1))
  | None => (kwargs, None)
  end.

(** [LLM.generate(self, prompt, max_tokens=None, **kwargs)] *)
Definition generate (self : loc) (prompt : string) (max_tokens : option Z)
    (kwargs : dict) : M generated :=
  let '(kwargs, max_tokens) := query_arguments self max_tokens kwargs in
  let* result :=
    (fun st =>
       match generate_query prompt max_tokens kwargs st with
       | (inr rs, st') => (Ok rs, st')
       | (inl what, st') => (Raise (Foreign what), st')
       end) in
  match result with
  | [] => raise (ValueError "No result returned from query")
  | [r] => ret (Single r)
  | _ :: _ :: _ => ret (Several result)
  end.

(** [LLM.generate_sync]: [asyncio.run(self.generate(...))] *)
Definition generate_sync (self : loc) (prompt : string) (max_tokens : option Z)
    (kwargs : dict) : M generated :=
  generate self prompt max_tokens kwargs.

End WithCollaborators.

End Llm.

(** ** [lmql/models/lmtp/backends/transformers_model.py] *)

Module TransformersModel.
Import Py.

(** Tensors are nested lists: a batch of token id sequences is
    [list (list Z)], a [batch x vocabulary] score tensor is
    [list (list F)], the logits of a forward pass are
    [list (list (list F))]. *)
Definition ids := list (list Z).

(** [torch.tensor(nested_list)] accepts rows of one length only. *)
Definition rectangular {A} (t : list (list A)) : bool :=
  match t with
  | [] => true
  | row :: rest => forallb (fun r => Nat.eqb (length r) (length row)) rest
  end.

Definition torch_tensor {A} (t : list (list A)) : result (list (list A)) :=
  if rectangular t then Ok t
  else Raise (ValueError "expected sequence of equal length").

(** [t[:, 1:]] and [t[:, :-1]] *)
Definition drop_first {A} (t : list (list A)) : list (list A) := map (drop 1) t.

Definition drop_last {A} (t : list (list A)) : list (list A) :=
  map (fun row => take (Nat.pred (length row)) row) t.

(** What the backend asks of its collaborators. *)
Inductive event :=
| Forward (input_ids attention_mask : ids)
| MakeBiasTensor (vocab_size : nat).

Section Backend.

(** Floating point scores and the operations of the tensor library on
    them, which are not part of this repository: the literal [0.0],
    addition, [x > 0.0] and [torch.log_softmax(_, dim=-1)] on one
    vocabulary row. *)
Context {F : Type}.
Context (zero : F) (fadd : F -> F -> F) (positive : F -> bool).
Context (log_softmax : list F -> list F).

(** The [logits] of one call of [self.model] on the inputs prepared by
    [prepare_inputs_for_generation]: one row of vocabulary scores per
    position of every sequence. *)
Context (model_logits : ids -> ids -> list (list (list F))).

(** [self.model.config.eos_token_id] *)
Context (eos_token_id : Z).

(** Arg-max and seeded sampling of the decoding loop over one row. *)
Context {G : Type}.
Context (argmax : list F -> Z) (sample : F -> G -> list F -> Z * G).

(** [row.gather(-1, index)] at one position: the score of token [i]. *)
Definition gather1 (row : list F) (i : Z) : result F :=
  if i <? 0 then Raise (RuntimeError "index out of range in gather")
  else match row !! Z.to_nat i with
       | Some x => Ok x
       | None => Raise (RuntimeError "index out of range in gather")
       end.

(** [rows.gather(-1, index.unsqueeze(-1)).flatten()] for one sequence:
    the index may be shorter than the rows, not longer. *)
Fixpoint gather_seq (rows : list (list F)) (index : list Z) {struct index}
    : result (list F) :=
  match index with
  | [] => Ok []
  | i :: index' =>
      match rows with
      | [] => Raise (RuntimeError "size of index exceeds size of input")
      | row :: rows' =>
          match gather1 row i with
          | Raise e => Raise e
          | Ok x =>
              match gather_seq rows' index' with
              | Raise e => Raise e
              | Ok xs => Ok (x :: xs)
              end
          end
      end
  end.

Fixpoint gather (t : list (list (list F))) (index : ids) {struct index}
    : result (list (list F)) :=
  match index with
  | [] => Ok []
  | ix :: index' =>
      match t with
      | [] => Raise (RuntimeError "size of index exceeds size of input")
      | rows :: t' =>
          match gather_seq rows ix with
          | Raise e => Raise e
          | Ok xs =>
              match gather t' index' with
              | Raise e => Raise e
              | Ok xss => Ok (xs :: xss)
              end
          end
      end
  end.

(** [TransformersLLM.score(input_ids, attention_mask)]: the scores (or
    the exception) and the calls made to the model. *)
Definition score (input_ids attention_mask : ids)
    : result (list (list F)) * list event :=
  match torch_tensor input_ids with
  | Raise e => (Raise e, [])
  | Ok input_ids =>
      match torch_tensor attention_mask with
      | Raise e => (Raise e, [])
      | Ok attention_mask =>
          let logits := model_logits input_ids attention_mask in
          let trace := [Forward input_ids attention_mask] in
          match input_ids with
          | [] => (Raise (IndexError "too many indices for tensor of dimension 1"), trace)
          | _ :: _ =>
              let next_token_logits := drop_last logits in
              let next_token_logits := map (map log_softmax) next_token_logits in
              match gather next_token_logits (drop_first input_ids) with
              | Raise e => (Raise e, trace)
              | Ok token_scores =>
                  (Ok (map (fun scores => zero :: scores) token_scores), trace)
              end
          end
      end
  end.

(** Modelled from the spec: [LMTPModel.make_bias_tensor], inherited from
    [lmtp_model.py], which is not among the sources.  Spec 4.4: a dense
    array of length [vocab_size], [0.0] everywhere except at the ids
    present in the bias set, where it holds the supplied adjustment. *)
Definition make_bias_tensor (logit_biases : gmap Z F) (vocab_size : nat) : list F :=
  map (fun i => default zero (logit_biases !! Z.of_nat i)) (seq 0 vocab_size).

(** [scores + bias_tensors] on one row, with the broadcasting of a
    dimension of size one. *)
Definition add_row (row bias : list F) : result (list F) :=
  if Nat.eqb (length row) (length bias) then Ok (zip_with fadd row bias)
  else match bias, row with
       | [b], _ => Ok (map (fun x => fadd x b) row)
       | _, [x] => Ok (map (fun b => fadd x b) bias)
       | _, _ => Raise (RuntimeError "tensor sizes must match")
       end.

Fixpoint add_rows (scores : list (list F)) (bias : list F) : result (list (list F)) :=
  match scores with
  | [] => Ok []
  | row :: rest =>
      match add_row row bias with
      | Raise e => Raise e
      | Ok r =>
          match add_rows rest bias with
          | Raise e => Raise e
          | Ok rs => Ok (r :: rs)
          end
      end
  end.

(** [scores.shape[-1]] *)
Definition shape_last (scores : list (list F)) : nat :=
  match scores with
  | row :: _ => length row
  | [] => O
  end.

(** The closure [BatchLogitsProcessor]: the captured [logit_biases] and
    the [nonlocal] cell [bias_tensors], [None] until the first call. *)
Record BatchLogitsProcessor := mkProcessor {
  logit_biases : gmap Z F;
  bias_tensors : option (list F)
}.

(** [BatchLogitsProcessor.__call__(input_ids, scores)]: the processor
    after the call, the processed scores, and the tensors it built. *)
Definition processor_call (p : BatchLogitsProcessor) (input_ids : ids)
    (scores : list (list F))
    : BatchLogitsProcessor * result (list (list F)) * list event :=
  let '(bias, built) :=
    match bias_tensors p with
    | None =>
        (make_bias_tensor (logit_biases p) (shape_last scores),
         [MakeBiasTensor (shape_last scores)])
    | Some bias => (bias, [])
    end in
  (mkProcessor (logit_biases p) (Some bias),
   match add_rows scores bias with
   | Raise e => Raise e
   | Ok summed => Ok (map log_softmax summed)
   end,
   built).

(** [TransformersLLM.logits_processors(logit_biases)] *)
Definition logits_processors (logit_biases : gmap Z F) : list BatchLogitsProcessor :=
  if Nat.eqb (size logit_biases) 0 then []
  else [mkProcessor logit_biases None].

(** A [TokenStreamer]: a callback with a state [O] of its own, which may
    raise. *)
Definition TokenStreamer (O : Type) : Type :=
  O -> ids -> list (list F) -> dict -> result O.

(** class TokenStreamerDisguisedAsStoppingCriterion *)
Record TokenStreamerDisguisedAsStoppingCriterion (O : Type) := mkCriterion {
  token_streamer : TokenStreamer O
}.
Arguments mkCriterion {O} token_streamer.
Arguments token_streamer {O} _.

(** [TokenStreamerDisguisedAsStoppingCriterion.__call__(input_ids, scores, **kwargs)] *)
Definition criterion_call {O} (self : TokenStreamerDisguisedAsStoppingCriterion O)
    (o : O) (input_ids : ids) (scores : list (list F)) (kwargs : dict)
    : result (O * bool) :=
  match token_streamer self o input_ids scores kwargs with
  | Raise e => Raise e
  | Ok o' => Ok (o', false)
  end.

(** *** The decoding loop

    Modelled from the spec: [self.model.generate], the decoding loop of the
    transformers library that [TransformersLLM.generate] drives and that is
    not among the sources.  Spec 4.3: every step scores the batch with the
    model, passes the raw scores through the logits processors, selects one
    token per sequence (arg-max, or sampling when [do_sample]), pads the
    sequences that have finished with the end-of-sequence id, and invokes
    the stopping hooks once with the step's sequences and scores; decoding
    ends after [max_new_tokens] steps, when every sequence has produced
    the end-of-sequence id, or when a hook returns [True]. *)

(** A stopping hook with a state [O] of its own. *)
Definition StoppingCriterion (O : Type) : Type :=
  O -> ids -> list (list F) -> result (O * bool).

Record loop_state (O : Type) := mkLoop {
  cur_sequences : ids;
  cur_attention : ids;
  unfinished : list bool;
  step_scores : list (list (list F));
  processors : list BatchLogitsProcessor;
  observer : O;
  rng : G;
  trace : list event
}.
Arguments mkLoop {O}.
Arguments cur_sequences {O}.
Arguments cur_attention {O}.
Arguments unfinished {O}.
Arguments step_scores {O}.
Arguments processors {O}.
Arguments observer {O}.
Arguments rng {O}.
Arguments trace {O}.

(** [outputs.logits[:, -1, :]] *)
Definition last_logits (logits : list (list (list F))) : list (list F) :=
  map (fun rows => List.last rows []) logits.

(** [for processor in logits_processor: scores = processor(input_ids, scores)] *)
Fixpoint apply_processors (ps : list BatchLogitsProcessor) (input_ids : ids)
    (scores : list (list F))
    : list BatchLogitsProcessor * result (list (list F)) * list event :=
  match ps with
  | [] => ([], Ok scores, [])
  | p :: ps' =>
      let '(p', r, built) := processor_call p input_ids scores in
      match r with
      | Raise e => (p' :: ps', Raise e, built)
      | Ok scores' =>
          let '(ps'', r', built') := apply_processors ps' input_ids scores' in
          (p' :: ps'', r', (built ++ built')%list)
      end
  end.

(** One token per sequence of the batch. *)
Fixpoint select_tokens (do_sample : bool) (temperature : F) (g : G)
    (scores : list (list F)) : list Z * G :=
  match scores with
  | [] => ([], g)
  | row :: rest =>
      let '(t, g1) :=
        if do_sample then sample temperature g row else (argmax row, g) in
      let '(ts, g2) := select_tokens do_sample temperature g1 rest in
      (t :: ts, g2)
  end.

(** Every hook is invoked; decoding stops when one of them says so. *)
Fixpoint run_criteria {O} (criteria : list (StoppingCriterion O)) (o : O)
    (input_ids : ids) (scores : list (list F)) : result (O * bool) :=
  match criteria with
  | [] => Ok (o, false)
  | c :: criteria' =>
      match c o input_ids scores with
      | Raise e => Raise e
      | Ok (o', stop) =>
          match run_criteria criteria' o' input_ids scores with
          | Raise e => Raise e
          | Ok (o'', stop') => Ok (o'', stop || stop')
          end
      end
  end.

(** One decoding step: the next state and whether decoding is over. *)
Definition decode_step {O} (criteria : list (StoppingCriterion O))
    (do_sample : bool) (temperature : F) (s : loop_state O)
    : result (loop_state O * bool) :=
  let logits := model_logits (cur_sequences s) (cur_attention s) in
  let forward := Forward (cur_sequences s) (cur_attention s) in
  let '(ps, r, built) :=
    apply_processors (processors s) (cur_sequences s) (last_logits logits) in
  match r with
  | Raise e => Raise e
  | Ok scores =>
      let '(tokens, g) := select_tokens do_sample temperature (rng s) scores in
      let tokens :=
        zip_with (fun (u : bool) t => if u then t else eos_token_id)
                 (unfinished s) tokens in
      let sequences := zip_with (fun row t => (row ++ [t])%list) (cur_sequences s) tokens in
      let attention := map (fun row => (row ++ [1])%list) (cur_attention s) in
      let unfinished' :=
        zip_with (fun (u : bool) t => u && negb (t =? eos_token_id))
                 (unfinished s) tokens in
      match run_criteria criteria (observer s) sequences scores with
      | Raise e => Raise e
      | Ok (o, stop) =>
          Ok (mkLoop sequences attention unfinished'
                     (step_scores s ++ [scores]) ps o g
                     (trace s ++ forward :: built),
              stop || negb (existsb id unfinished'))
      end
  end.

Fixpoint decode {O} (criteria : list (StoppingCriterion O)) (do_sample : bool)
    (temperature : F) (max_new_tokens : nat) (s : loop_state O)
    : result (loop_state O) :=
  match max_new_tokens with
  | O => Ok s
  | S remaining =>
      match decode_step criteria do_sample temperature s with
      | Raise e => Raise e
      | Ok (s', true) => Ok s'
      | Ok (s', false) => decode criteria do_sample temperature remaining s'
      end
  end.

(** The call [self.model.generate(input_ids=..., do_sample=...,
    attention_mask=..., temperature=..., max_new_tokens=...,
    logits_processor=..., stopping_criteria=...)]. *)
Definition model_generate {O} (input_ids attention_mask : ids) (do_sample : bool)
    (temperature : F) (max_new_tokens : nat)
    (logits_processor : list BatchLogitsProcessor)
    (stopping_criteria : list (StoppingCriterion O)) (o : O) (g : G)
    : result (loop_state O) :=
  decode stopping_criteria do_sample temperature max_new_tokens
    (mkLoop input_ids attention_mask (map (fun _ => true) input_ids) []
            logits_processor o g []).

(** *** [TransformersLLM.generate] *)

Record LMTPModelResult := mkResult {
  sequences : ids;
  scores : list (list (list F))
}.

(** What a call leaves behind: the result, the streamer's state and the
    calls made to the model and to [make_bias_tensor]. *)
Record generation (O : Type) := mkGeneration {
  returned : LMTPModelResult;
  streamed : O;
  calls : list event
}.
Arguments mkGeneration {O}.
Arguments returned {O}.
Arguments streamed {O}.
Arguments calls {O}.

(** [TransformersLLM.generate(input_ids, attention_mask, temperature,
    max_new_tokens, bias_tensor, streamer)] *)
Definition generate {O} (input_ids attention_mask : ids) (temperature : F)
    (max_new_tokens : nat) (bias_tensor : gmap Z F) (streamer : TokenStreamer O)
    (o : O) (g : G) : result (generation O) :=
  match torch_tensor input_ids with
  | Raise e => Raise e
  | Ok input_ids =>
      match torch_tensor attention_mask with
      | Raise e => Raise e
      | Ok attention_mask =>
          let do_sample := positive temperature in
          let logits_processor := logits_processors bias_tensor in
          let stopping_criteria :=
            [fun o input_ids scores =>
               criterion_call (mkCriterion streamer) o input_ids scores []] in
          match model_generate input_ids attention_mask do_sample temperature
                  max_new_tokens logits_processor stopping_criteria o g with
          | Raise e => Raise e
          | Ok s =>
              Ok (mkGeneration (mkResult (cur_sequences s) (step_scores s))
                               (observer s) (trace s))
          end
      end
  end.

(** *** Reading a call back from what it left behind *)

(** A streamer that observes nothing. *)
Definition no_streamer : TokenStreamer unit := fun _ _ _ _ => Ok tt.

(** A loop state without its observer. *)
Definition unobserved {O} (s : loop_state O) : loop_state unit :=
  mkLoop (cur_sequences s) (cur_attention s) (unfinished s) (step_scores s)
         (processors s) tt (rng s) (trace s).

(** The bias tensors built during a call. *)
Definition is_build (ev : event) : bool :=
  match ev with
  | MakeBiasTensor _ => true
  | Forward _ _ => false
  end.

Definition builds (calls : list event) : list event := List.filter is_build calls.

(** The raw scores of the steps of a call: the model's last logits at
    every forward pass. *)
Definition raw_scores (calls : list event) : list (list (list F)) :=
  omap (fun ev =>
          match ev with
          | Forward input_ids attention_mask =>
              Some (last_logits (model_logits input_ids attention_mask))
          | MakeBiasTensor _ => None
          end) calls.

(** One bias tensor added to every row of every step, and the rows
    normalized. *)
Definition biased (bias : list F) (scores : list (list F)) : list (list F) :=
  map (fun row => log_softmax (zip_with fadd row bias)) scores.

End Backend.

Arguments mkCriterion {F O} token_streamer.
Arguments token_streamer {F O} _.
Arguments mkLoop {F G O}.
Arguments cur_sequences {F G O}.
Arguments cur_attention {F G O}.
Arguments unfinished {F G O}.
Arguments step_scores {F G O}.
Arguments processors {F G O}.
Arguments observer {F G O}.
Arguments rng {F G O}.
Arguments trace {F G O}.
Arguments mkGeneration {F O}.
Arguments returned {F O}.
Arguments streamed {F O}.
Arguments calls {F O}.

End TransformersModel.

(** ** Concrete collaborators

    Small instances of what the two files take from outside, used to run
    the embedding on concrete inputs. *)

Module Examples.
Import Py.

(** A process in which the default model is the fixed fallback name and
    no [LLM] object exists yet; adapters are represented by the call that
    built them, and every construction succeeds. *)
Definition fresh_process : @Llm.state Llm.adapter_call :=
  Llm.mkState ∅ (Llm.DStr "openai/gpt-3.5-turbo-instruct") [].

Definition build (c : Llm.adapter_call) : string + Llm.adapter_call := inr c.

(** A process that holds one handle, made earlier by
    [lmql.model("local:gpt2", cuda=True)] and installed as the default
    model with [set_default_model]. *)
Definition gpt2_handle : @Llm.LLM Llm.adapter_call :=
  Llm.mkLLM "local:gpt2"
    (Some (Llm.inprocess "gpt2" [("cuda", VBool true); ("inprocess", VBool true)]))
    (Some "cuda=True").

Definition serving_process : @Llm.state Llm.adapter_call :=
  Llm.mkState {[ 1%positive := gpt2_handle ]} (Llm.DLLM 1%positive)
    [Llm.Call (Llm.inprocess "gpt2" [("cuda", VBool true); ("inprocess", VBool true)])].

(** An alias table with one entry. *)
Definition aliases : gmap string string :=
  {[ "chatgpt" := "openai/gpt-3.5-turbo" ]}.

(** A file system without any tokenizer file. *)
Definition no_files (path : string) : bool := false.

(** A query that echoes the prompt [n] times, [n] being the [n] keyword
    argument when it is a non-negative integer. *)
Definition echo_query (prompt : string) (max_tokens : option Z) (kwargs : dict)
    (st : @Llm.state Llm.adapter_call)
    : (string + list string) * @Llm.state Llm.adapter_call :=
  match dict_get kwargs "n" with
  | Some (VInt n) => (inr (repeat prompt (Z.to_nat n)), st)
  | Some _ => (inl "n must be an integer", st)
  | None => (inr [prompt], st)
  end.

(** Integer scores over a vocabulary of three tokens, [2] being the
    end-of-sequence id: after token [0] the model prefers [1], after [1]
    it prefers [2], and otherwise [0]. *)
Definition toy_row (t : Z) : list Z :=
  [0; if t =? 0 then 5 else 0; if t =? 1 then 5 else 0].

(** One row per position; an empty sequence is scored as a lone
    end-of-sequence token. *)
Definition toy_rows (tokens : list Z) : list (list Z) :=
  match tokens with
  | [] => [toy_row 2]
  | _ :: _ => map toy_row tokens
  end.

Definition toy_logits (input_ids attention_mask : TransformersModel.ids)
    : list (list (list Z)) :=
  map toy_rows input_ids.

(** Shift a row so that its maximum is [0]. *)
Definition toy_normalize (row : list Z) : list Z :=
  let top := fold_right Z.max (hd 0 row) row in
  map (fun x => x - top) row.

(** The first position holding the maximum. *)
Fixpoint toy_argmax_from (i : Z) (best : Z * Z) (row : list Z) : Z :=
  match row with
  | [] => fst best
  | x :: row' =>
      toy_argmax_from (i + 1) (if snd best <? x then (i, x) else best) row'
  end.

Definition toy_argmax (row : list Z) : Z :=
  match row with
  | [] => 0
  | x :: row' => toy_argmax_from 1 (0, x) row'
  end.

(** Seeded sampling: the seed picks the token and is then advanced. *)
Definition toy_sample (temperature : Z) (seed : Z) (row : list Z) : Z * Z :=
  (seed mod Z.max 1 (Z.of_nat (length row)), seed + 1).

(** A streamer that counts the steps it has seen and one that fails. *)
Definition counting_streamer : @TransformersModel.TokenStreamer Z nat :=
  fun seen _ _ _ => Ok (S seen).

Definition null_streamer : @TransformersModel.TokenStreamer Z unit :=
  fun _ _ _ _ => Ok tt.

Definition toy_generate {O} :=
  @TransformersModel.generate Z 0 Z.add (fun t => 0 <? t) toy_normalize
    toy_logits 2 Z toy_argmax toy_sample O.

Definition toy_score :=
  @TransformersModel.score Z 0 toy_normalize toy_logits.

(** A batch of two sequences with its attention mask, and a bias set
    that favours token [0]. *)
Definition toy_batch : TransformersModel.ids := [[0; 1; 2]; [1; 1; 0]].

Definition toy_mask : TransformersModel.ids := [[1; 1; 1]; [1; 1; 1]].

Definition toy_bias : gmap Z Z := {[ 0 := 10 ]}.

End Examples.

(** ** The backend on one bias set per sequence

    [logits_processors] asks of [logit_biases] its [len] only, and hands
    it to [make_bias_tensor].  The scheduler that drives the backend
    passes a list with one bias set, possibly empty, for every sequence
    of the batch; this is the embedding of the same source lines, 64-110,
    on such a list. *)

Module TransformersBatch.
Import Py TransformersModel.

Section Backend.

Context {F : Type}.
Context (zero : F) (fadd : F -> F -> F) (positive : F -> bool).
Context (log_softmax : list F -> list F).
Context (model_logits : ids -> ids -> list (list (list F))).
Context (eos_token_id : Z).
Context {G : Type}.
Context (argmax : list F -> Z) (sample : F -> G -> list F -> Z * G).

(** Modelled from the spec: [LMTPModel.make_bias_tensor], inherited from
    [lmtp_model.py], which is not among the sources, on a list of bias
    sets: the dense array of spec 4.4 for every bias set of the list. *)
Definition make_bias_tensor (logit_biases : list (gmap Z F)) (vocab_size : nat)
    : list (list F) :=
  map (fun bias => TransformersModel.make_bias_tensor zero bias vocab_size)
      logit_biases.

(** Row by row, for two tensors with as many rows. *)
Fixpoint add_pairwise (scores bias : list (list F)) : result (list (list F)) :=
  match scores, bias with
  | row :: scores', b :: bias' =>
      match add_row fadd row b with
      | Raise e => Raise e
      | Ok r =>
          match add_pairwise scores' bias' with
          | Raise e => Raise e
          | Ok rs => Ok (r :: rs)
          end
      end
  | _, _ => Ok []
  end.

(** [scores + bias_tensors], both [batch x vocabulary], with the
    broadcasting of a batch of size one. *)
Definition add_batch (scores bias : list (list F)) : result (list (list F)) :=
  if Nat.eqb (length scores) (length bias) then add_pairwise scores bias
  else match bias, scores with
       | [b], _ => add_rows fadd scores b
       | _, [row] => add_pairwise (map (fun _ => row) bias) bias
       | _, _ => Raise (RuntimeError "tensor sizes must match")
       end.

(** The closure [BatchLogitsProcessor]: the captured [logit_biases] and
    the [nonlocal] cell [bias_tensors], [None] until the first call. *)
Record BatchLogitsProcessor := mkProcessor {
  logit_biases : list (gmap Z F);
  bias_tensors : option (list (list F))
}.

(** [BatchLogitsProcessor.__call__(input_ids, scores)]: the processor
    after the call, the processed scores, and the tensors it built. *)
Definition processor_call (p : BatchLogitsProcessor) (input_ids : ids)
    (scores : list (list F))
    : BatchLogitsProcessor * result (list (list F)) * list event :=
  let '(bias, built) :=
    match bias_tensors p with
    | None =>
        (make_bias_tensor (logit_biases p) (shape_last scores),
         [MakeBiasTensor (shape_last scores)])
    | Some bias => (bias, [])
    end in
  (mkProcessor (logit_biases p) (Some bias),
   match add_batch scores bias with
   | Raise e => Raise e
   | Ok summed => Ok (map log_softmax summed)
   end,
   built).

(** [TransformersLLM.logits_processors(logit_biases)]: [len] is the
    number of bias sets, not the number of biased tokens. *)
Definition logits_processors (logit_biases : list (gmap Z F))
    : list BatchLogitsProcessor :=
  if Nat.eqb (length logit_biases) 0 then []
  else [mkProcessor logit_biases None].

(** *** The decoding loop

    Modelled from the spec: [self.model.generate], the decoding loop of
    the transformers library, as in [TransformersModel]: spec 4.3. *)

Record loop_state (O : Type) := mkLoop {
  cur_sequences : ids;
  cur_attention : ids;
  unfinished : list bool;
  step_scores : list (list (list F));
  processors : list BatchLogitsProcessor;
  observer : O;
  rng : G;
  trace : list event
}.
Arguments mkLoop {O}.
Arguments cur_sequences {O}.
Arguments cur_attention {O}.
Arguments unfinished {O}.
Arguments step_scores {O}.
Arguments processors {O}.
Arguments observer {O}.
Arguments rng {O}.
Arguments trace {O}.

(** [for processor in logits_processor: scores = processor(input_ids, scores)] *)
Fixpoint apply_processors (ps : list BatchLogitsProcessor) (input_ids : ids)
    (scores : list (list F))
    : list BatchLogitsProcessor * result (list (list F)) * list event :=
  match ps with
  | [] => ([], Ok scores, [])
  | p :: ps' =>
      let '(p', r, built) := processor_call p input_ids scores in
      match r with
      | Raise e => (p' :: ps', Raise e, built)
      | Ok scores' =>
          let '(ps'', r', built') := apply_processors ps' input_ids scores' in
          (p' :: ps'', r', (built ++ built')%list)
      end
  end.

(** One decoding step: the next state and whether decoding is over. *)
Definition decode_step {O} (criteria : list (StoppingCriterion O))
    (do_sample : bool) (temperature : F) (s : loop_state O)
    : result (loop_state O * bool) :=
  let logits := model_logits (cur_sequences s) (cur_attention s) in
  let forward := Forward (cur_sequences s) (cur_attention s) in
  let '(ps, r, built) :=
    apply_processors (processors s) (cur_sequences s) (last_logits logits) in
  match r with
  | Raise e => Raise e
  | Ok scores =>
      let '(tokens, g) :=
        select_tokens argmax sample do_sample temperature (rng s) scores in
      let tokens :=
        zip_with (fun (u : bool) t => if u then t else eos_token_id)
                 (unfinished s) tokens in
      let sequences := zip_with (fun row t => (row ++ [t])%list) (cur_sequences s) tokens in
      let attention := map (fun row => (row ++ [1])%list) (cur_attention s) in
      let unfinished' :=
        zip_with (fun (u : bool) t => u && negb (t =? eos_token_id))
                 (unfinished s) tokens in
      match run_criteria criteria (observer s) sequences scores with
      | Raise e => Raise e
      | Ok (o, stop) =>
          Ok (mkLoop sequences attention unfinished'
                     (step_scores s ++ [scores]) ps o g
                     (trace s ++ forward :: built),
              stop || negb (existsb id unfinished'))
      end
  end.

Fixpoint decode {O} (criteria : list (StoppingCriterion O)) (do_sample : bool)
    (temperature : F) (max_new_tokens : nat) (s : loop_state O)
    : result (loop_state O) :=
  match max_new_tokens with
  | O => Ok s
  | S remaining =>
      match decode_step criteria do_sample temperature s with
      | Raise e => Raise e
      | Ok (s', true) => Ok s'
      | Ok (s', false) => decode criteria do_sample temperature remaining s'
      end
  end.

(** The call [self.model.generate(input_ids=..., do_sample=...,
    attention_mask=..., temperature=..., max_new_tokens=...,
    logits_processor=..., stopping_criteria=...)]. *)
Definition model_generate {O} (input_ids attention_mask : ids) (do_sample : bool)
    (temperature : F) (max_new_tokens : nat)
    (logits_processor : list BatchLogitsProcessor)
    (stopping_criteria : list (StoppingCriterion O)) (o : O) (g : G)
    : result (loop_state O) :=
  decode stopping_criteria do_sample temperature max_new_tokens
    (mkLoop input_ids attention_mask (map (fun _ => true) input_ids) []
            logits_processor o g []).

(** [TransformersLLM.generate(input_ids, attention_mask, temperature,
    max_new_tokens, bias_tensor, streamer)], [bias_tensor] being the list
    of bias sets. *)
Definition generate {O} (input_ids attention_mask : ids) (temperature : F)
    (max_new_tokens : nat) (bias_tensor : list (gmap Z F))
    (streamer : TokenStreamer O) (o : O) (g : G) : result (generation O) :=
  match torch_tensor input_ids with
  | Raise e => Raise e
  | Ok input_ids =>
      match torch_tensor attention_mask with
      | Raise e => Raise e
      | Ok attention_mask =>
          let do_sample := positive temperature in
          let logits_processor := logits_processors bias_tensor in
          let stopping_criteria :=
            [fun o input_ids scores =>
               criterion_call (mkCriterion streamer) o input_ids scores []] in
          match model_generate input_ids attention_mask do_sample temperature
                  max_new_tokens logits_processor stopping_criteria o g with
          | Raise e => Raise e
          | Ok s =>
              Ok (mkGeneration (mkResult (cur_sequences s) (step_scores s))
                               (observer s) (trace s))
          end
      end
  end.

(** One bias tensor per sequence added to the rows of a step, and the
    rows normalized. *)
Definition biased (bias scores : list (list F)) : list (list F) :=
  map log_softmax (zip_with (zip_with fadd) scores bias).

End Backend.

Arguments mkLoop {F G O}.
Arguments cur_sequences {F G O}.
Arguments cur_attention {F G O}.
Arguments unfinished {F G O}.
Arguments step_scores {F G O}.
Arguments processors {F G O}.
Arguments observer {F G O}.
Arguments rng {F G O}.
Arguments trace {F G O}.

End TransformersBatch.

Module BatchExamples.
Import Py.

(** The toy model of [Examples] behind the backend on lists of bias
    sets. *)
Definition toy_generate {O} :=
  @TransformersBatch.generate Z 0 Z.add (fun t => 0 <? t) Examples.toy_normalize
    Examples.toy_logits 2 Z Examples.toy_argmax Examples.toy_sample O.

(** Two sequences, neither with a biased token. *)
Definition unbiased : list (gmap Z Z) := [∅; ∅].

(** Two sequences, the first favouring token [0]. *)
Definition first_biased : list (gmap Z Z) := [Examples.toy_bias; ∅].

End BatchExamples.

(** * Properties *)

(** ** Dictionaries and paths *)

Module PyFacts.
Import Py.

Lemma dict_get_set_same (d : dict) (k : string) (v : value) :
  dict_get (dict_set d k v) k = Some v.
Proof.
  induction d as [|[k' v'] d IH]; simpl.
  - by rewrite String.eqb_refl.
  - destruct (String.eqb k' k) eqn:E; simpl; rewrite E; [done | exact IH].
Qed.

Lemma dict_get_set_other (d : dict) (k k' : string) (v : value) :
  k <> k' -> dict_get (dict_set d k v) k' = dict_get d k'.
Proof.
  intros Hne. induction d as [|[k0 v0] d IH]; simpl.
  - destruct (String.eqb k k') eqn:E; [|done].
    apply String.eqb_eq in E. contradiction.
  - destruct (String.eqb k0 k) eqn:E; simpl.
    + apply String.eqb_eq in E. subst k0.
      destruct (String.eqb k k') eqn:E'; [|done].
      apply String.eqb_eq in E'. contradiction.
    + destruct (String.eqb k0 k'); [done | exact IH].
Qed.

Lemma dict_get_del_same (d : dict) (k : string) :
  dict_get (dict_del d k) k = None.
Proof.
  induction d as [|[k' v'] d IH]; simpl; [done|].
  destruct (String.eqb k' k) eqn:E; simpl; [exact IH|].
  by rewrite E.
Qed.

Lemma dict_get_del_other (d : dict) (k k' : string) :
  k <> k' -> dict_get (dict_del d k) k' = dict_get d k'.
Proof.
  intros Hne. induction d as [|[k0 v0] d IH]; simpl; [done|].
  destruct (String.eqb k0 k) eqn:E; simpl.
  - apply String.eqb_eq in E. subst k0.
    destruct (String.eqb k k') eqn:E'; [|exact IH].
    apply String.eqb_eq in E'. contradiction.
  - destruct (String.eqb k0 k'); [done | exact IH].
Qed.

Lemma startswith_app (p s : string) : startswith (p +:+ s) p = true.
Proof.
  unfold startswith. induction p as [|c p IH]; simpl.
  - by destruct s.
  - destruct (ascii_dec c c); [exact IH | contradiction].
Qed.

Lemma dict_in_set_other (d : dict) (k k' : string) (v : value) :
  k <> k' -> dict_in k' (dict_set d k v) = dict_in k' d.
Proof. intros Hne. unfold dict_in. by rewrite dict_get_set_other. Qed.

Lemma dict_in_del_other (d : dict) (k k' : string) :
  k <> k' -> dict_in k' (dict_del d k) = dict_in k' d.
Proof. intros Hne. unfold dict_in. by rewrite dict_get_del_other. Qed.

Lemma dict_get_default_set_same (d : dict) (k : string) (v dflt : value) :
  dict_get_default (dict_set d k v) k dflt = v.
Proof. unfold dict_get_default. by rewrite dict_get_set_same. Qed.

Lemma dict_get_default_set_other (d : dict) (k k' : string) (v dflt : value) :
  k <> k' ->
  dict_get_default (dict_set d k v) k' dflt = dict_get_default d k' dflt.
Proof. intros Hne. unfold dict_get_default. by rewrite dict_get_set_other. Qed.

Lemma dict_get_default_del_other (d : dict) (k k' : string) (dflt : value) :
  k <> k' -> dict_get_default (dict_del d k) k' dflt = dict_get_default d k' dflt.
Proof. intros Hne. unfold dict_get_default. by rewrite dict_get_del_other. Qed.

(** Reads of a dictionary through the writes made to it. *)
Ltac dict_reads :=
  repeat first
    [ rewrite dict_get_set_same
    | rewrite dict_get_default_set_same
    | rewrite dict_get_del_same
    | rewrite dict_get_set_other by discriminate
    | rewrite dict_get_del_other by discriminate
    | rewrite dict_in_set_other by discriminate
    | rewrite dict_in_del_other by discriminate
    | rewrite dict_get_default_set_other by discriminate
    | rewrite dict_get_default_del_other by discriminate ].


End PyFacts.

(** ** The resolver and the handle *)

Module LlmSpec.
Import Py PyFacts Llm.

Section Resolution.

Context {Adapter : Type}.
Context (aliases : gmap string string).
Context (path_exists : string -> bool).
Context (construct : adapter_call -> string + Adapter).

(** Unfold the resolver and its monad, leaving strings and dictionaries
    alone. *)
Ltac run :=
  cbv beta iota zeta delta
    [from_descriptor bind call emit new_LLM get_default_model ret raise
     dict_pop];
  cbn [heap default_model log fst snd].

(** The same for a concrete identifier, whose tests compute. *)
Ltac run_identifier :=
  unfold from_descriptor, bind, call, emit, new_LLM, get_default_model,
    ret, raise, dict_pop;
  simpl.

(** C8: an [LLM] object handed to the resolver comes back as the very
    same object, whatever the options: the heap, and with it the handle
    and its adapter, the default model and the log of constructor calls
    are as they were. *)
Theorem from_descriptor_returns_handle_unchanged
    (st : @state Adapter) (l : loc) (kwargs : dict) :
  from_descriptor aliases path_exists construct (DLLM l) kwargs st = (Ok l, st).
Proof. reflexivity. Qed.





(** The identifier the dispatch works on: the alias table's entry for
    it, or the identifier itself. *)
Lemma from_descriptor_builds_handle
    (st st' : @state Adapter) (d : descriptor) (kwargs : dict)
    (s : string) (l : loc) :
  (if is_dynamic_or_none d then default_model st else d) = DStr s ->
  from_descriptor aliases path_exists construct d kwargs st = (Ok l, st') ->
  exists (a : Adapter) (evs : list event),
    l = fresh (dom (heap st)) /\
    st' = mkState
            (<[l := mkLLM (default s (aliases !! s)) (Some a)
                          (Some (render (heap st) kwargs))]> (heap st))
            (default_model st) (log st ++ evs).
Proof.
  intros Hd. unfold from_descriptor at 1. unfold bind at 1.
  assert ((if is_dynamic_or_none d then get_default_model else ret d) st
          = (Ok (DStr s), st)) as ->.
  { unfold get_default_model, ret. destruct (is_dynamic_or_none d); by rewrite Hd. }
  run. intros Hrun.
  repeat case_match; simplify_eq; cbn [heap default_model log] in *;
    do 2 eexists; (split; [reflexivity|]); f_equal;
    rewrite <- ?app_assoc; try reflexivity; by rewrite app_nil_r.
Qed.

(** C6: for the identifier "random", whatever the options, the resolver
    either rejects the call before any constructor runs (the caller passed
    [use_existing_configuration], which the in-process constructor is
    given a second time), or calls exactly one constructor, the in-process
    one, with options in which [inprocess] and [async_transport] are
    [True] and [tokenizer] is the caller's [vocab], "gpt2" without one. *)
Theorem random_forces_inprocess_options
    (Hrandom : aliases !! "random" = None)
    (st : @state Adapter) (kwargs : dict) :
  exists forwarded : dict,
    dict_get forwarded "inprocess" = Some (VBool true) /\
    dict_get forwarded "async_transport" = Some (VBool true) /\
    dict_get forwarded "tokenizer" =
      Some (default (VStr "gpt2") (dict_get kwargs "vocab")) /\
    let '(r, st') :=
      from_descriptor aliases path_exists construct (DStr "random") kwargs st in
    if dict_in "use_existing_configuration" kwargs
    then emitted st st' = [] /\
         r = Raise (TypeError "got multiple values for keyword argument 'use_existing_configuration'")
    else emitted st st' = [Call (inprocess "random" forwarded)].
Proof.
  eexists. repeat split; [| | |
    run_identifier; rewrite Hrandom; simpl; dict_reads; simpl;
    destruct (dict_in "use_existing_configuration" kwargs); simpl;
    [ split; [unfold emitted; by rewrite drop_all | reflexivity]
    | destruct (construct _); simpl; unfold emitted; simpl;
      by rewrite drop_app_length ] ];
  dict_reads; reflexivity.
Qed.

(** C1, as the code has it: for an identifier found in the alias table,
    the handle stores the table's entry for it, the identifier that the
    dispatch works on, and not the string the caller wrote; resolving the
    alias is resolving its entry without a table. *)
Theorem alias_entry_is_dispatched_and_stored
    (st : @state Adapter) (s t : string) (kwargs : dict) :
  aliases !! s = Some t ->
  s <> "<dynamic>" ->
  (forall (l : loc) (st' : @state Adapter),
      from_descriptor aliases path_exists construct (DStr s) kwargs st = (Ok l, st') ->
      exists o : LLM, heap st' !! l = Some o /\ model_identifier o = t) /\
  (t <> "<dynamic>" ->
   from_descriptor aliases path_exists construct (DStr s) kwargs st
   = from_descriptor ∅ path_exists construct (DStr t) kwargs st).
Proof.
  intros Halias Hs.
  assert (String.eqb s "<dynamic>" = false) as Es by by apply String.eqb_neq.
  split.
  - intros l st' Hrun.
    destruct (from_descriptor_builds_handle st st' (DStr s) kwargs s l)
      as (a & evs & -> & ->); [by simpl; rewrite Es | exact Hrun |].
    cbn [heap]. rewrite lookup_insert_eq, Halias. by eexists.
  - intros Ht.
    assert (String.eqb t "<dynamic>" = false) as Et by by apply String.eqb_neq.
    unfold from_descriptor, bind, ret. cbn [is_dynamic_or_none].
    by rewrite Es, Et, Halias, lookup_empty.
Qed.

(** C5, as the code has it: whenever the resolver builds a handle, that
    is, whenever the identifier (the default model, for "<dynamic>" and
    [None]) is a string and not an existing handle, the handle's
    configuration string is the rendering of the options exactly as the
    caller passed them, on the heap of the call; with no options it is
    the empty string.  When the identifier is an existing handle, that
    handle is returned and nothing is changed: it keeps the
    configuration string it was built with, whatever the options. *)
Theorem configuration_string_renders_caller_options
    (st st' : @state Adapter) (d : descriptor) (kwargs : dict)
    (s : string) (l : loc) :
  ((if is_dynamic_or_none d then default_model st else d) = DStr s ->
   from_descriptor aliases path_exists construct d kwargs st = (Ok l, st') ->
   exists o : LLM,
     heap st' !! l = Some o /\
     configuration_string o = Some (render (heap st) kwargs) /\
     (kwargs = [] -> configuration_string o = Some "")) /\
  ((if is_dynamic_or_none d then default_model st else d) = DLLM l ->
   from_descriptor aliases path_exists construct d kwargs st = (Ok l, st)).
Proof.
  split.
  - intros Hd Hrun.
    destruct (from_descriptor_builds_handle st st' d kwargs s l Hd Hrun)
      as (a & evs & -> & ->).
    cbn [heap]. rewrite lookup_insert_eq. eexists. split; [reflexivity|].
    split; [reflexivity|]. by intros ->.
  - intros Hd. unfold from_descriptor at 1. unfold bind at 1.
    assert ((if is_dynamic_or_none d then get_default_model else ret d) st
            = (Ok (DLLM l), st)) as ->.
    { unfold get_default_model, ret. destruct (is_dynamic_or_none d); by rewrite Hd. }
    reflexivity.
Qed.



End Resolution.

Section Generation.

Context {Adapter Res : Type}.
Context (generate_query :
           string -> option Z -> dict -> @state Adapter ->
           (string + list Res) * @state Adapter).

(** C9: [generate] raises its "No result returned from query" error
    exactly when the query answers with the empty list; what it returns
    otherwise is the only result, or a list of two results or more, never
    an empty list. *)
Theorem generate_raises_iff_query_is_empty
    (self : loc) (prompt : string) (max_tokens : option Z) (kwargs : dict)
    (st : @state Adapter) :
  let '(query_kwargs, query_max_tokens) :=
    query_arguments self max_tokens kwargs in
  let answer := (generate_query prompt query_max_tokens query_kwargs st).1 in
  let outcome := (generate generate_query self prompt max_tokens kwargs st).1 in
  (outcome = Raise (ValueError "No result returned from query")
   <-> answer = inr []) /\
  (forall g : generated,
      outcome = Ok g ->
      match g with
      | Single r => answer = inr [r]
      | Several rs => answer = inr rs /\ (2 <= length rs)%nat
      end).
Proof.
  unfold generate, bind, raise, ret.
  destruct (query_arguments self max_tokens kwargs) as [query_kwargs query_max_tokens].
  destruct (generate_query prompt query_max_tokens query_kwargs st)
    as [[what | [|r [|r' rs]]] st']; cbn [fst]; split;
    try (split; intros; congruence);
    intros g Hg; simplify_eq; cbn [length]; auto with lia.
Qed.

End Generation.

(** *** On concrete calls *)

(** C1, refuted as stated: with "chatgpt" an alias of
    "openai/gpt-3.5-turbo", the handle that [lmql.model("chatgpt")]
    returns stores "openai/gpt-3.5-turbo", not the string the caller
    wrote. *)
Lemma chatgpt_handle_stores_alias_entry :
  Examples.aliases !! "chatgpt" = Some "openai/gpt-3.5-turbo" /\
  exists (l : loc) (st' : state) (o : LLM),
    from_descriptor Examples.aliases Examples.no_files Examples.build
      (DStr "chatgpt") [] Examples.fresh_process = (Ok l, st') /\
    heap st' !! l = Some o /\
    log st' = [Call (openai_model "gpt-3.5-turbo" VNone [])] /\
    model_identifier o = "openai/gpt-3.5-turbo" /\
    model_identifier o <> "chatgpt".
Proof.
  split; [by vm_compute|].
  eexists _, _, _. split; [by vm_compute|].
  split; [by vm_compute|]. by repeat split.
Qed.

Lemma alias_entry_is_dispatched_and_stored_witness :
  (forall (l : loc) (st' : state),
      from_descriptor Examples.aliases Examples.no_files Examples.build
        (DStr "chatgpt") [] Examples.fresh_process = (Ok l, st') ->
      exists o : LLM,
        heap st' !! l = Some o /\ model_identifier o = "openai/gpt-3.5-turbo") /\
  ("openai/gpt-3.5-turbo" <> "<dynamic>" ->
   from_descriptor Examples.aliases Examples.no_files Examples.build
     (DStr "chatgpt") [] Examples.fresh_process
   = from_descriptor ∅ Examples.no_files Examples.build
       (DStr "openai/gpt-3.5-turbo") [] Examples.fresh_process).
Proof.
  apply (alias_entry_is_dispatched_and_stored Examples.aliases Examples.no_files
           Examples.build Examples.fresh_process "chatgpt" "openai/gpt-3.5-turbo" []).
  - by vm_compute.
  - discriminate.
Defined.

(** C5, refuted as stated: a handle that exists already, passed as such
    or found as the default model behind "<dynamic>", comes back with the
    configuration string it was built with, whatever the options of the
    call. *)
Lemma existing_handle_keeps_configuration_string :
  (exists (st' : state) (o : LLM),
      from_descriptor Examples.aliases Examples.no_files Examples.build
        (DStr "<dynamic>") [] Examples.serving_process = (Ok 1%positive, st') /\
      heap st' !! 1%positive = Some o /\
      configuration_string o = Some "cuda=True" /\
      configuration_string o <> Some "") /\
  (exists (st' : state) (o : LLM),
      from_descriptor Examples.aliases Examples.no_files Examples.build
        (DLLM 1%positive) [("temperature", VInt 0)] Examples.serving_process
      = (Ok 1%positive, st') /\
      heap st' !! 1%positive = Some o /\
      render (heap Examples.serving_process) [("temperature", VInt 0)]
      = "temperature=0" /\
      configuration_string o = Some "cuda=True" /\
      configuration_string o <> Some "temperature=0").
Proof.
  split; eexists _, _.
  - split; [by vm_compute|]. split; [by vm_compute|]. by split.
  - split; [by vm_compute|]. split; [by vm_compute|].
    split; [by vm_compute|]. by split.
Qed.

Lemma configuration_string_renders_caller_options_witness :
  let kwargs := [("endpoint", VStr "gpu:9000"); ("inprocess", VBool false)] in
  let st' :=
    (from_descriptor Examples.aliases Examples.no_files Examples.build
       (DStr "local:foo") kwargs Examples.fresh_process).2 in
  log st' = [Call (inprocess "foo" [("inprocess", VBool true)])] /\
  render (heap Examples.fresh_process) kwargs = "endpoint=gpu:9000, inprocess=False" /\
  (exists o : LLM,
      heap st' !! 1%positive = Some o /\
      configuration_string o = Some (render (heap Examples.fresh_process) kwargs) /\
      (kwargs = [] -> configuration_string o = Some "")) /\
  from_descriptor Examples.aliases Examples.no_files Examples.build
    (DStr "<dynamic>") kwargs Examples.serving_process
  = (Ok 1%positive, Examples.serving_process).
Proof.
  intros kwargs st'.
  split; [by vm_compute|]. split; [by vm_compute|]. split.
  - apply (configuration_string_renders_caller_options Examples.aliases
             Examples.no_files Examples.build Examples.fresh_process st'
             (DStr "local:foo") kwargs "local:foo" 1%positive).
    + reflexivity.
    + by vm_compute.
  - apply (configuration_string_renders_caller_options Examples.aliases
             Examples.no_files Examples.build Examples.serving_process
             Examples.serving_process (DStr "<dynamic>") kwargs "local:gpt2" 1%positive).
    reflexivity.
Defined.

Lemma random_forces_inprocess_options_witness :
  exists forwarded : dict,
    dict_get forwarded "inprocess" = Some (VBool true) /\
    dict_get forwarded "async_transport" = Some (VBool true) /\
    dict_get forwarded "tokenizer" = Some (VStr "bert") /\
    emitted Examples.fresh_process
      (from_descriptor Examples.aliases Examples.no_files Examples.build
         (DStr "random") [("vocab", VStr "bert"); ("inprocess", VBool false)]
         Examples.fresh_process).2
    = [Call (inprocess "random" forwarded)].
Proof.
  destruct (random_forces_inprocess_options Examples.aliases Examples.no_files
              Examples.build eq_refl Examples.fresh_process
              [("vocab", VStr "bert"); ("inprocess", VBool false)])
    as (forwarded & H1 & H2 & H3 & H4).
  exists forwarded. repeat split; [exact H1 | exact H2 | exact H3 |].
  revert H4. by vm_compute.
Defined.


End LlmSpec.

(** ** The transformers backend *)

Module TransformersSpec.
Import Py TransformersModel.
Local Open Scope list_scope.

(** [List.map] as the [fmap] of the list lemmas. *)
Ltac as_fmap :=
  unfold ids in *;
  repeat match goal with
    | |- context [@map ?A ?B ?f ?l] =>
        change (@map A B f l) with (@fmap list _ A B f l)
    | H : context [@map ?A ?B ?f ?l] |- _ =>
        change (@map A B f l) with (@fmap list _ A B f l) in H
    end.

Section Backend.

Context {F : Type}.
Context (zero : F) (fadd : F -> F -> F) (positive : F -> bool).
Context (log_softmax : list F -> list F).
Context (model_logits : ids -> ids -> list (list (list F))).
Context (eos_token_id : Z).
Context {G : Type}.
Context (argmax : list F -> Z) (sample : F -> G -> list F -> Z * G).

(** *** Scoring *)

Lemma rectangular_same_length {A} (t : list (list A)) (n : nat) :
  Forall (fun row => length row = n) t -> rectangular t = true.
Proof.
  destruct t as [|row rest]; [done|]. intros H.
  apply Forall_cons in H as [Hrow Hrest]. simpl.
  apply forallb_forall. intros r Hr. apply Nat.eqb_eq.
  rewrite Forall_forall in Hrest. rewrite Hrow. apply Hrest.
  by apply list_elem_of_In.
Qed.

Lemma gather_seq_in_range (rows : list (list F)) (index : list Z) (V : nat) :
  (length index <= length rows)%nat ->
  Forall (fun r => length r = V) rows ->
  Forall (fun t => 0 <= t < Z.of_nat V) index ->
  exists xs : list F,
    gather_seq rows index = Ok xs /\
    length xs = length index /\
    forall (j : nat) (t : Z),
      index !! j = Some t ->
      exists r x, rows !! j = Some r /\ r !! Z.to_nat t = Some x /\ xs !! j = Some x.
Proof.
  revert rows. induction index as [|t index IH]; intros rows Hlen Hrows Hix.
  - exists []. by repeat split.
  - destruct rows as [|r rows]; [simpl in Hlen; lia|].
    apply Forall_cons in Hrows as [Hr Hrows].
    apply Forall_cons in Hix as [Ht Hix].
    destruct (IH rows) as (xs & Hxs & Hlenxs & Hat); [simpl in Hlen; lia|done..|].
    destruct (lookup_lt_is_Some_2 r (Z.to_nat t)) as [x Hx]; [lia|].
    exists (x :: xs). simpl. unfold gather1.
    destruct (Z.ltb_spec t 0) as [?|_]; [lia|]. rewrite Hx, Hxs.
    split; [done|]. split; [simpl; by rewrite Hlenxs|].
    intros [|j] t' Hj; simpl in *.
    + simplify_eq. by exists r, x.
    + by apply Hat.
Qed.

Lemma gather_batch (t : list (list (list F))) (index : list (list Z)) :
  length t = length index ->
  (forall (b : nat) rows ix,
      t !! b = Some rows -> index !! b = Some ix ->
      exists xs, gather_seq rows ix = Ok xs) ->
  exists out : list (list F),
    gather t index = Ok out /\
    length out = length index /\
    forall (b : nat) ix,
      index !! b = Some ix ->
      exists rows xs,
        t !! b = Some rows /\ out !! b = Some xs /\ gather_seq rows ix = Ok xs.
Proof.
  revert t. induction index as [|ix index IH]; intros t Hlen Hok.
  - exists []. by repeat split.
  - destruct t as [|rows t]; [done|].
    destruct (Hok O rows ix) as [xs Hxs]; [done..|].
    destruct (IH t) as (out & Hout & Hlenout & Hat).
    { simpl in Hlen. lia. }
    { intros b rows' ix' H1 H2. by apply (Hok (S b)). }
    exists (xs :: out). simpl. rewrite Hxs, Hout.
    split; [done|]. split; [simpl; by rewrite Hlenout|].
    intros [|b] ix' Hb; simpl in *.
    + simplify_eq. by exists rows, xs.
    + by apply Hat.
Qed.

(** Whenever [score] returns, every row starts with [0.0] and the model
    has been called once, on the whole batch. *)
Lemma score_starts_with_zero (input_ids attention_mask : ids)
    (out : list (list F)) :
  (score zero log_softmax model_logits input_ids attention_mask).1 = Ok out ->
  Forall (fun row => row !! O = Some zero) out /\
  (score zero log_softmax model_logits input_ids attention_mask).2
  = [Forward input_ids attention_mask].
Proof.
  unfold score, torch_tensor.
  destruct (rectangular input_ids); [|done].
  destruct (rectangular attention_mask); [|done].
  destruct input_ids as [|row input_ids]; [done|].
  destruct (gather _ _) as [token_scores|e]; [|done].
  cbn [fst snd]. intros [= <-]. split; [|done].
  apply Forall_fmap. by apply Forall_true.
Qed.

(** The rows and the index that [score] gathers from, for one sequence. *)
Lemma score_gathers_in_range (rows : list (list F)) (tokens : list Z) (n V : nat) :
  (forall row, length (log_softmax row) = length row) ->
  length rows = n -> length tokens = n ->
  Forall (fun r => length r = V) rows ->
  Forall (fun t => 0 <= t < Z.of_nat V) tokens ->
  exists xs : list F,
    gather_seq (map log_softmax (take (Nat.pred (length rows)) rows))
               (drop 1 tokens) = Ok xs /\
    length xs = Nat.pred n /\
    forall (i : nat) (t : Z),
      tokens !! S i = Some t ->
      exists lg, rows !! i = Some lg /\
                 xs !! i = log_softmax lg !! Z.to_nat t /\ is_Some (xs !! i).
Proof.
  intros Hls Hrows Htokens HV Hrange.
  destruct (gather_seq_in_range
              (map log_softmax (take (Nat.pred (length rows)) rows))
              (drop 1 tokens) V) as (xs & Hxs & Hlen & Hat).
  - rewrite length_drop, length_map, length_take. lia.
  - apply Forall_fmap, Forall_take. eapply Forall_impl; [exact HV|].
    intros r Hr. simpl. by rewrite Hls.
  - by apply Forall_drop.
  - exists xs. split; [done|]. split.
    { rewrite Hlen, length_drop. lia. }
    intros i t Hi.
    destruct (Hat i t) as (r & x & Hr & Hx & Hxi).
    { by rewrite lookup_drop. }
    as_fmap. apply list_lookup_fmap_Some in Hr as (lg & -> & Hlg).
    apply lookup_take_Some in Hlg as [Hlg _].
    exists lg. by rewrite Hxi, Hx.
Qed.

(** C4: on a batch of sequences of one length [n >= 1] whose tokens are
    in the vocabulary, and a model that returns one row of [V] scores per
    position, [score] calls the model once, on the whole batch, and
    returns one row per sequence, as long as the sequence: [0.0] at
    position 0 and, at every later position, the [log_softmax] of the
    model's scores at the position before, read at the token observed
    there.  And on every batch on which [score] returns, every row starts
    with [0.0] and the model has been called once. *)
Theorem score_returns_log_probabilities_of_observed_tokens :
  (forall (input_ids attention_mask : ids) (out : list (list F)),
      (score zero log_softmax model_logits input_ids attention_mask).1 = Ok out ->
      Forall (fun row => row !! O = Some zero) out /\
      (score zero log_softmax model_logits input_ids attention_mask).2
      = [Forward input_ids attention_mask]) /\
  (forall (input_ids attention_mask : ids) (n V : nat),
      input_ids <> [] ->
      (0 < n)%nat ->
      Forall (fun tokens => length tokens = n) input_ids ->
      rectangular attention_mask = true ->
      Forall (Forall (fun t => 0 <= t < Z.of_nat V)) input_ids ->
      (forall row, length (log_softmax row) = length row) ->
      length (model_logits input_ids attention_mask) = length input_ids ->
      Forall (fun rows => length rows = n /\ Forall (fun r => length r = V) rows)
             (model_logits input_ids attention_mask) ->
      exists out : list (list F),
        score zero log_softmax model_logits input_ids attention_mask
        = (Ok out, [Forward input_ids attention_mask]) /\
        length out = length input_ids /\
        forall (b : nat) (tokens : list Z),
          input_ids !! b = Some tokens ->
          exists (row : list F) (rows : list (list F)),
            out !! b = Some row /\
            model_logits input_ids attention_mask !! b = Some rows /\
            length row = length tokens /\
            row !! O = Some zero /\
            forall (i : nat) (t : Z),
              tokens !! S i = Some t ->
              exists lg : list F,
                rows !! i = Some lg /\
                row !! S i = log_softmax lg !! Z.to_nat t /\
                is_Some (row !! S i)).
Proof.
  split; [apply score_starts_with_zero|].
  unfold ids.
  intros input_ids attention_mask n V Hne Hn Hlen Hmask Hrange Hls Hbatch Hshape.
  set (logits := model_logits input_ids attention_mask) in *.
  assert (forall b rows tokens,
             logits !! b = Some rows -> input_ids !! b = Some tokens ->
             length rows = n /\ length tokens = n /\
             Forall (fun r => length r = V) rows /\
             Forall (fun t => 0 <= t < Z.of_nat V) tokens) as Hrow.
  { intros b rows tokens Hrows Htokens.
    rewrite Forall_lookup in Hshape. rewrite Forall_lookup in Hlen.
    rewrite Forall_lookup in Hrange.
    destruct (Hshape b rows Hrows) as [H1 H2].
    split; [exact H1|]. split; [exact (Hlen b tokens Htokens)|].
    split; [exact H2 | exact (Hrange b tokens Htokens)]. }
  destruct (gather_batch (map (map log_softmax) (drop_last logits))
                         (drop_first input_ids))
    as (token_scores & Hgather & Hlenout & Hat).
  { unfold drop_last, drop_first. by rewrite !length_map. }
  { unfold drop_last, drop_first. intros b rows' ix Hrows' Hix.
    as_fmap. rewrite !list_lookup_fmap in Hrows'.
    rewrite list_lookup_fmap in Hix.
    destruct (logits !! b) as [rows|] eqn:Hrows; [|done].
    destruct (input_ids !! b) as [tokens|] eqn:Htokens; [|done].
    simpl in *. simplify_eq.
    destruct (Hrow b rows tokens Hrows Htokens) as (H1 & H2 & H3 & H4).
    destruct (score_gathers_in_range rows tokens n V Hls H1 H2 H3 H4)
      as (xs & Hxs & _). by exists xs. }
  exists (map (fun scores => zero :: scores) token_scores).
  split; [|split].
  - unfold score, torch_tensor.
    rewrite (rectangular_same_length input_ids n Hlen), Hmask.
    fold logits. rewrite Hgather. by destruct input_ids.
  - rewrite length_map, Hlenout. unfold drop_first. by rewrite length_map.
  - intros b tokens Htokens.
    destruct (Hat b (drop 1 tokens)) as (rows' & xs & Hrows' & Hxs & Hseq).
    { unfold drop_first. as_fmap. by rewrite list_lookup_fmap, Htokens. }
    unfold drop_last in Hrows'. as_fmap. rewrite !list_lookup_fmap in Hrows'.
    destruct (logits !! b) as [rows|] eqn:Hrows; [|done].
    simpl in Hrows'. simplify_eq.
    destruct (Hrow b rows tokens Hrows Htokens) as (H1 & H2 & H3 & H4).
    destruct (score_gathers_in_range rows tokens n V Hls H1 H2 H3 H4)
      as (xs' & Hxs' & Hlenxs & Hpoint).
    rewrite Hseq in Hxs'. simplify_eq.
    exists (zero :: xs'), rows.
    rewrite list_lookup_fmap, Hxs. repeat split; [|done].
    simpl. rewrite Hlenxs, H2. lia.
Qed.

(** *** The stopping hook *)

(** What [generate] passes as [stopping_criteria]. *)
Local Notation "'hook' streamer" :=
  [fun o input_ids scores =>
     criterion_call (F:=F) (mkCriterion streamer) o input_ids scores []]
  (at level 10, streamer at level 9, only parsing).

Local Notation "'step' criteria" :=
  (decode_step zero fadd log_softmax model_logits eos_token_id argmax sample
               criteria)
  (at level 10, criteria at level 9, only parsing).

Local Notation "'loop' criteria" :=
  (decode zero fadd log_softmax model_logits eos_token_id argmax sample
          criteria)
  (at level 10, criteria at level 9, only parsing).

Lemma criterion_never_stops {O} (streamer : TokenStreamer O) (o o' : O)
    (input_ids : ids) (scores : list (list F)) (kwargs : dict) (stop : bool) :
  criterion_call (mkCriterion streamer) o input_ids scores kwargs = Ok (o', stop) ->
  stop = false /\ streamer o input_ids scores kwargs = Ok o'.
Proof.
  unfold criterion_call. cbn [token_streamer].
  destruct (streamer o input_ids scores kwargs); [|done]. by intros [= <- <-].
Qed.

(** A step leaves the same state behind, observer apart, whoever
    observes it. *)
Lemma step_without_observer {O} (streamer : TokenStreamer O) (do_sample : bool)
    (temperature : F) (s s' : loop_state O) (finished : bool) :
  step (hook streamer) do_sample temperature s = Ok (s', finished) ->
  step (hook no_streamer) do_sample temperature (unobserved s)
  = Ok (unobserved s', finished).
Proof.
  unfold decode_step, unobserved. cbn -[apply_processors select_tokens].
  destruct (apply_processors _ _ _ _ _ _) as [[ps [sc|e]] built]; [|done].
  destruct (select_tokens _ _ _ _ _ _) as [tokens g].
  unfold criterion_call, no_streamer. cbn [token_streamer].
  destruct (streamer _ _ _ _); [|done]. by intros [= <- <-].
Qed.

Lemma step_with_observer {O} (streamer : TokenStreamer O) (do_sample : bool)
    (temperature : F) (s : loop_state O) (s0 : loop_state unit) (finished : bool) :
  (forall o input_ids scores kwargs,
      exists o', streamer o input_ids scores kwargs = Ok o') ->
  step (hook no_streamer) do_sample temperature (unobserved s) = Ok (s0, finished) ->
  exists s' : loop_state O,
    step (hook streamer) do_sample temperature s = Ok (s', finished) /\
    unobserved s' = s0.
Proof.
  intros Htotal.
  unfold decode_step, unobserved. cbn -[apply_processors select_tokens].
  destruct (apply_processors _ _ _ _ _ _) as [[ps [sc|e]] built]; [|done].
  destruct (select_tokens _ _ _ _ _ _) as [tokens g].
  unfold criterion_call, no_streamer. cbn [token_streamer].
  match goal with
  | |- context [streamer ?o ?i ?x ?kw] => destruct (Htotal o i x kw) as [o' ->]
  end.
  intros [= <- <-]. by eexists.
Qed.

Lemma loop_without_observer {O} (streamer : TokenStreamer O) (do_sample : bool)
    (temperature : F) (max_new_tokens : nat) (s s' : loop_state O) :
  loop (hook streamer) do_sample temperature max_new_tokens s = Ok s' ->
  loop (hook no_streamer) do_sample temperature max_new_tokens (unobserved s)
  = Ok (unobserved s').
Proof.
  revert s. induction max_new_tokens as [|remaining IH]; intros s; simpl.
  - by intros [= <-].
  - destruct (step _ _ _ s) as [[s1 [|]]|e] eqn:Hstep; [| |done].
    + intros [= <-]. by rewrite (step_without_observer _ _ _ _ _ _ Hstep).
    + intros Hloop. rewrite (step_without_observer _ _ _ _ _ _ Hstep).
      by apply IH.
Qed.

Lemma loop_with_observer {O} (streamer : TokenStreamer O) (do_sample : bool)
    (temperature : F) (max_new_tokens : nat) (s : loop_state O)
    (s0 : loop_state unit) :
  (forall o input_ids scores kwargs,
      exists o', streamer o input_ids scores kwargs = Ok o') ->
  loop (hook no_streamer) do_sample temperature max_new_tokens (unobserved s)
  = Ok s0 ->
  exists s' : loop_state O,
    loop (hook streamer) do_sample temperature max_new_tokens s = Ok s' /\
    unobserved s' = s0.
Proof.
  intros Htotal. revert s.
  induction max_new_tokens as [|remaining IH]; intros s; simpl.
  - intros [= <-]. by exists s.
  - destruct (step _ _ _ (unobserved s)) as [[s1 finished]|e] eqn:Hstep; [|done].
    destruct (step_with_observer streamer _ _ _ _ _ Htotal Hstep)
      as (s' & -> & <-).
    destruct finished.
    + intros [= <-]. by exists s'.
    + apply IH.
Qed.

(** C2: the wrapper around the streamer never returns [True]: whenever
    it returns, it returns [False], having called the streamer once with
    the step's sequences and scores.  Consequently a [generate] call that
    returns has produced the sequences and scores, and made the calls to
    the model, of the same call with a streamer that observes nothing, at
    any temperature and seed; and a streamer that does not raise cannot
    make a call fail. *)
Theorem streamer_never_changes_generation :
  (forall (O : Type) (streamer : TokenStreamer O) (o o' : O) (input_ids : ids)
          (scores : list (list F)) (kwargs : dict) (stop : bool),
      criterion_call (mkCriterion streamer) o input_ids scores kwargs
      = Ok (o', stop) ->
      stop = false /\ streamer o input_ids scores kwargs = Ok o') /\
  (forall (O : Type) (streamer : TokenStreamer O) (o : O) (g : G)
          (input_ids attention_mask : ids) (temperature : F)
          (max_new_tokens : nat) (bias_tensor : gmap Z F) (out : generation O),
      generate zero fadd positive log_softmax model_logits eos_token_id argmax
        sample input_ids attention_mask temperature max_new_tokens bias_tensor
        streamer o g = Ok out ->
      generate zero fadd positive log_softmax model_logits eos_token_id argmax
        sample input_ids attention_mask temperature max_new_tokens bias_tensor
        no_streamer tt g
      = Ok (mkGeneration (returned out) tt (calls out))) /\
  (forall (O : Type) (streamer : TokenStreamer O) (o : O) (g : G)
          (input_ids attention_mask : ids) (temperature : F)
          (max_new_tokens : nat) (bias_tensor : gmap Z F) (out0 : generation unit),
      (forall o input_ids scores kwargs,
          exists o', streamer o input_ids scores kwargs = Ok o') ->
      generate zero fadd positive log_softmax model_logits eos_token_id argmax
        sample input_ids attention_mask temperature max_new_tokens bias_tensor
        no_streamer tt g = Ok out0 ->
      exists out : generation O,
        generate zero fadd positive log_softmax model_logits eos_token_id argmax
          sample input_ids attention_mask temperature max_new_tokens bias_tensor
          streamer o g = Ok out /\
        returned out = returned out0 /\ calls out = calls out0).
Proof.
  split; [|split].
  - intros O streamer o o' input_ids scores kwargs stop.
    apply criterion_never_stops.
  - intros O streamer o g input_ids attention_mask temperature max_new_tokens
      bias_tensor out.
    unfold generate, model_generate.
    destruct (torch_tensor input_ids) as [input_ids'|e]; [|done].
    destruct (torch_tensor attention_mask) as [attention_mask'|e]; [|done].
    destruct (loop _ _ _ _ _) as [s'|e] eqn:Hloop; [|done].
    intros [= <-].
    apply loop_without_observer in Hloop. unfold unobserved at 1 in Hloop.
    cbn [cur_sequences cur_attention unfinished step_scores processors rng trace]
      in Hloop.
    by rewrite Hloop.
  - intros O streamer o g input_ids attention_mask temperature max_new_tokens
      bias_tensor out0 Htotal.
    unfold generate, model_generate.
    destruct (torch_tensor input_ids) as [input_ids'|e]; [|done].
    destruct (torch_tensor attention_mask) as [attention_mask'|e]; [|done].
    destruct (loop (hook no_streamer) _ _ _ _) as [s0|e] eqn:Hloop; [|done].
    intros [= <-].
    destruct (loop_with_observer streamer (positive temperature) temperature
                max_new_tokens
                (mkLoop input_ids' attention_mask'
                        (map (fun _ => true) input_ids') []
                        (logits_processors bias_tensor) o g []) s0 Htotal Hloop)
      as (s' & -> & <-).
    by eexists.
Qed.

(** *** The logits processor *)

Lemma make_bias_tensor_length (bias : gmap Z F) (V : nat) :
  length (make_bias_tensor zero bias V) = V.
Proof. unfold make_bias_tensor. by rewrite length_map, length_seq. Qed.





Lemma raw_scores_step (calls built : list event) (input_ids attention_mask : ids) :
  builds built = built ->
  raw_scores model_logits (calls ++ Forward input_ids attention_mask :: built)
  = raw_scores model_logits calls
    ++ [last_logits (model_logits input_ids attention_mask)].
Proof.
  intros Hbuilt. unfold raw_scores. rewrite omap_app. f_equal. simpl. f_equal.
  rewrite <- Hbuilt. clear Hbuilt. unfold builds.
  induction built as [|[] built IH]; simpl; [done | exact IH | exact IH].
Qed.

Lemma builds_step (calls built : list event) (input_ids attention_mask : ids) :
  builds built = built ->
  builds (calls ++ Forward input_ids attention_mask :: built)
  = builds calls ++ built.
Proof.
  intros Hbuilt. unfold builds in *. rewrite List.filter_app. simpl.
  by rewrite Hbuilt.
Qed.

(** What a step that returns has done to the processors, the scores and
    the trace. *)
Lemma step_returns {O} (criteria : list (StoppingCriterion O)) (do_sample : bool)
    (temperature : F) (s s' : loop_state O) (finished : bool) :
  step criteria do_sample temperature s = Ok (s', finished) ->
  exists ps sc built,
    apply_processors zero fadd log_softmax (processors s) (cur_sequences s)
      (last_logits (model_logits (cur_sequences s) (cur_attention s)))
    = (ps, Ok sc, built) /\
    processors s' = ps /\
    step_scores s' = step_scores s ++ [sc] /\
    trace s' = trace s ++ Forward (cur_sequences s) (cur_attention s) :: built.
Proof.
  unfold decode_step.
  destruct (apply_processors _ _ _ _ _ _) as [[ps [sc|e]] built]; [|done].
  destruct (select_tokens _ _ _ _ _ _) as [tokens g].
  destruct (run_criteria _ _ _ _) as [[o stop]|e]; [|done].
  intros [= <- <-]. by exists ps, sc, built.
Qed.


Lemma last_logits_shape (logits : list (list (list F))) (V : nat) :
  Forall (fun rows => length (List.last rows []) = V) logits ->
  Forall (fun row => length row = V) (last_logits logits).
Proof. intros H. unfold last_logits. as_fmap. by apply Forall_fmap. Qed.



(** Without a logits processor the steps keep the model's raw scores. *)
Lemma loop_without_processors {O} (criteria : list (StoppingCriterion O))
    (do_sample : bool) (temperature : F) (max_new_tokens : nat)
    (s s' : loop_state O) :
  processors s = [] ->
  loop criteria do_sample temperature max_new_tokens s = Ok s' ->
  builds (trace s') = builds (trace s) /\
  exists more,
    raw_scores model_logits (trace s') = raw_scores model_logits (trace s) ++ more /\
    step_scores s' = step_scores s ++ more.
Proof.
  revert s. induction max_new_tokens as [|remaining IH]; intros s Hps; cbn [decode].
  - intros [= <-]. split; [done|]. exists []. by rewrite !app_nil_r.
  - destruct (step criteria do_sample temperature s) as [[s1 finished]|e] eqn:Hstep;
      [|done].
    destruct (step_returns _ _ _ _ _ _ Hstep) as (ps & sc & built & Hcall & H1 & H2 & H3).
    rewrite Hps in Hcall. cbn [apply_processors] in Hcall.
    injection Hcall as <- <- <-.
    assert (builds (trace s1) = builds (trace s)) as Hb.
    { rewrite H3, builds_step by done. by rewrite app_nil_r. }
    assert (raw_scores model_logits (trace s1)
            = raw_scores model_logits (trace s)
              ++ [last_logits (model_logits (cur_sequences s) (cur_attention s))])
      as Hr by (rewrite H3; by apply raw_scores_step).
    destruct finished.
    + intros [= <-]. split; [done|]. eexists. split; [exact Hr|]. by rewrite H2.
    + intros Hloop. destruct (IH s1 H1 Hloop) as (Hb' & more & Hr' & Hs').
      split; [congruence|].
      exists (last_logits (model_logits (cur_sequences s) (cur_attention s)) :: more).
      split.
      * rewrite Hr', Hr. by rewrite <- app_assoc.
      * rewrite Hs', H2. by rewrite <- app_assoc.
Qed.

(** A call given a single bias set, of no entry: no processor is
    installed, and a call that returns has built no tensor and kept the
    model's raw scores at every step. *)
Lemma generate_without_bias_keeps_raw_scores {O} (streamer : TokenStreamer O)
    (o : O) (g : G) (input_ids attention_mask : ids) (temperature : F)
    (max_new_tokens : nat) (bias : gmap Z F) (out : generation O) :
  size bias = 0%nat ->
  generate zero fadd positive log_softmax model_logits eos_token_id argmax
    sample input_ids attention_mask temperature max_new_tokens bias
    streamer o g = Ok out ->
  logits_processors bias = [] /\
  builds (calls out) = [] /\
  scores (returned out) = raw_scores model_logits (calls out).
Proof.
  intros Hbias. unfold generate, model_generate, logits_processors. rewrite Hbias.
  cbn [Nat.eqb].
  destruct (torch_tensor input_ids) as [input_ids'|e]; [|done].
  destruct (torch_tensor attention_mask) as [attention_mask'|e]; [|done].
  destruct (loop _ _ _ _ _) as [s'|e] eqn:Hloop; [|done].
  intros [= <-]. cbn [calls returned scores]. split; [done|].
  apply loop_without_processors in Hloop as (Hb & more & Hr & Hs); [|done].
  cbn [trace step_scores] in Hb, Hr, Hs. split; [exact Hb|].
  by rewrite Hr, Hs.
Qed.


End Backend.

(** *** On a concrete model *)

Lemma toy_logits_batch (input_ids attention_mask : ids) :
  length (Examples.toy_logits input_ids attention_mask) = length input_ids.
Proof. unfold Examples.toy_logits. by rewrite length_map. Qed.

Lemma toy_logits_vocabulary (input_ids attention_mask : ids) :
  Forall (fun rows => length (List.last rows []) = 3%nat)
         (Examples.toy_logits input_ids attention_mask).
Proof.
  unfold Examples.toy_logits. as_fmap. apply Forall_fmap, Forall_true.
  intros [|t tokens]; [done|]. simpl.
  revert t. induction tokens as [|t' tokens IH]; intros t; [done|]. apply IH.
Qed.

Lemma toy_normalize_length (row : list Z) :
  length (Examples.toy_normalize row) = length row.
Proof. unfold Examples.toy_normalize. by rewrite length_map. Qed.

Lemma counting_streamer_returns (seen : nat) (input_ids : ids)
    (scores : list (list Z)) (kwargs : dict) :
  exists seen', Examples.counting_streamer seen input_ids scores kwargs = Ok seen'.
Proof. by eexists. Qed.

Lemma score_returns_log_probabilities_of_observed_tokens_witness :
  exists out : list (list Z),
    Examples.toy_score Examples.toy_batch Examples.toy_mask
    = (Ok out, [Forward Examples.toy_batch Examples.toy_mask]) /\
    length out = length Examples.toy_batch /\
    forall (b : nat) (tokens : list Z),
      Examples.toy_batch !! b = Some tokens ->
      exists (row : list Z) (rows : list (list Z)),
        out !! b = Some row /\
        Examples.toy_logits Examples.toy_batch Examples.toy_mask !! b = Some rows /\
        length row = length tokens /\
        row !! O = Some 0 /\
        forall (i : nat) (t : Z),
          tokens !! S i = Some t ->
          exists lg : list Z,
            rows !! i = Some lg /\
            row !! S i = Examples.toy_normalize lg !! Z.to_nat t /\
            is_Some (row !! S i).
Proof.
  destruct (score_returns_log_probabilities_of_observed_tokens
              0 Examples.toy_normalize Examples.toy_logits) as [_ Hscore].
  apply (Hscore Examples.toy_batch Examples.toy_mask 3%nat 3%nat).
  - discriminate.
  - lia.
  - by repeat constructor.
  - reflexivity.
  - repeat constructor; lia.
  - apply toy_normalize_length.
  - reflexivity.
  - by repeat constructor.
Defined.

Lemma streamer_never_changes_generation_witness :
  exists (out0 : generation unit) (out : generation nat),
    Examples.toy_generate [[0]; [1]] [[1]; [1]] 0 5%nat ∅ no_streamer tt 7
    = Ok out0 /\
    Examples.toy_generate [[0]; [1]] [[1]; [1]] 0 5%nat ∅
      Examples.counting_streamer 0%nat 7 = Ok out /\
    sequences (returned out0) = [[0; 1; 2]; [1; 2; 2]] /\
    streamed out = 2%nat /\
    returned out = returned out0 /\ calls out = calls out0.
Proof.
  destruct (streamer_never_changes_generation 0 Z.add (fun t => 0 <? t)
              Examples.toy_normalize Examples.toy_logits 2 Examples.toy_argmax
              Examples.toy_sample) as (_ & _ & Hobserved).
  unfold Examples.toy_generate.
  destruct (generate _ _ _ _ _ _ _ _ _ _ _ _ _ no_streamer _ _)
    as [out0|e] eqn:Hrun0; [|by vm_compute in Hrun0].
  destruct (Hobserved nat Examples.counting_streamer 0%nat 7 [[0]; [1]] [[1]; [1]]
              0 5%nat ∅ out0 counting_streamer_returns Hrun0)
    as (out & Hout & Hreturned & Hcalls).
  exists out0, out. split; [done|]. split; [exact Hout|].
  split; [|split; [|by split]].
  - revert Hrun0. vm_compute. by intros [= <-].
  - revert Hout. vm_compute. by intros [= <-].
Defined.


End TransformersSpec.

(** ** The backend on one bias set per sequence *)

Module TransformersBatchSpec.
Import Py TransformersModel.
Local Open Scope list_scope.

Section Backend.

Context {F : Type}.
Context (zero : F) (fadd : F -> F -> F) (positive : F -> bool).
Context (log_softmax : list F -> list F).
Context (model_logits : ids -> ids -> list (list (list F))).
Context (eos_token_id : Z).
Context {G : Type}.
Context (argmax : list F -> Z) (sample : F -> G -> list F -> Z * G).

Local Notation "'hook' streamer" :=
  [fun o input_ids scores =>
     criterion_call (F:=F) (mkCriterion streamer) o input_ids scores []]
  (at level 10, streamer at level 9, only parsing).

Local Notation "'step' criteria" :=
  (TransformersBatch.decode_step zero fadd log_softmax model_logits eos_token_id
     argmax sample criteria)
  (at level 10, criteria at level 9, only parsing).

Local Notation "'loop' criteria" :=
  (TransformersBatch.decode zero fadd log_softmax model_logits eos_token_id
     argmax sample criteria)
  (at level 10, criteria at level 9, only parsing).

Local Notation "'tensor' biases V" :=
  (TransformersBatch.make_bias_tensor zero biases V)
  (at level 10, biases at level 9, V at level 9, only parsing).

Lemma make_bias_tensor_shape (biases : list (gmap Z F)) (V : nat) :
  length (tensor biases V) = length biases /\
  Forall (fun row => length row = V) (tensor biases V).
Proof.
  unfold TransformersBatch.make_bias_tensor. split; [by rewrite length_map|].
  TransformersSpec.as_fmap. apply Forall_fmap, Forall_true. intros bias. simpl.
  apply TransformersSpec.make_bias_tensor_length.
Qed.

(** No bias in any bias set: the tensor is all zeros. *)
Lemma make_bias_tensor_unbiased (biases : list (gmap Z F)) (V : nat) :
  Forall (fun bias => bias = ∅) biases ->
  tensor biases V = map (fun _ => replicate V zero) biases.
Proof.
  unfold TransformersBatch.make_bias_tensor.
  induction 1 as [|bias biases -> _ IH]; [done|]. simpl. rewrite IH. f_equal.
  unfold TransformersModel.make_bias_tensor.
  clear. generalize 0%nat as start.
  induction V as [|V IH]; intros start; [done|]. simpl.
  by rewrite lookup_empty, IH.
Qed.

Lemma add_pairwise_same_shape (scores bias : list (list F)) (V : nat) :
  length scores = length bias ->
  Forall (fun row => length row = V) scores ->
  Forall (fun row => length row = V) bias ->
  TransformersBatch.add_pairwise fadd scores bias
  = Ok (zip_with (zip_with fadd) scores bias).
Proof.
  revert bias. induction scores as [|row scores IH]; intros [|b bias] Hlen Hs Hb;
    try done.
  apply Forall_cons in Hs as [Hrow Hs]. apply Forall_cons in Hb as [Hb0 Hb].
  simpl. unfold add_row. rewrite Hrow, Hb0, Nat.eqb_refl.
  rewrite (IH bias); [done| |done..]. simpl in Hlen. lia.
Qed.

Lemma add_batch_same_shape (scores bias : list (list F)) (V : nat) :
  length scores = length bias ->
  Forall (fun row => length row = V) scores ->
  Forall (fun row => length row = V) bias ->
  TransformersBatch.add_batch fadd scores bias
  = Ok (zip_with (zip_with fadd) scores bias).
Proof.
  intros Hlen Hs Hb. unfold TransformersBatch.add_batch.
  rewrite Hlen, Nat.eqb_refl. by apply (add_pairwise_same_shape _ _ V).
Qed.

(** The processor on well-shaped scores, before and after the tensor is
    built. *)
Lemma processor_call_adds_tensor (biases : list (gmap Z F))
    (cell : option (list (list F))) (input_ids : ids) (scores : list (list F))
    (V : nat) :
  scores <> [] ->
  length scores = length biases ->
  Forall (fun row => length row = V) scores ->
  cell = None \/ cell = Some (tensor biases V) ->
  TransformersBatch.processor_call zero fadd log_softmax
    (TransformersBatch.mkProcessor biases cell) input_ids scores
  = (TransformersBatch.mkProcessor biases (Some (tensor biases V)),
     Ok (TransformersBatch.biased fadd log_softmax (tensor biases V) scores),
     match cell with Some _ => [] | None => [MakeBiasTensor V] end).
Proof.
  intros Hne Hlen Hrows Hcell.
  destruct (make_bias_tensor_shape biases V) as [HB HV].
  assert (shape_last scores = V) as Hshape.
  { destruct scores as [|row scores]; [done|]. by apply Forall_cons in Hrows as [? _]. }
  unfold TransformersBatch.processor_call.
  cbn [TransformersBatch.bias_tensors TransformersBatch.logit_biases].
  destruct Hcell as [-> | ->]; rewrite ?Hshape;
    rewrite (add_batch_same_shape _ _ V) by (done || congruence); done.
Qed.

Lemma select_tokens_length (do_sample : bool) (temperature : F) (g : G)
    (scores : list (list F)) :
  length (select_tokens argmax sample do_sample temperature g scores).1
  = length scores.
Proof.
  revert g. induction scores as [|row scores IH]; intros g; [done|]. simpl.
  destruct (if do_sample then sample temperature g row else (argmax row, g))
    as [t g1].
  specialize (IH g1).
  destruct (select_tokens argmax sample do_sample temperature g1 scores)
    as [ts g2].
  simpl in *. by rewrite IH.
Qed.

(** One step of a call whose processor holds the list of bias sets:
    it returns, keeps the batch as large as it was, and has added the one
    tensor to the raw scores. *)
Lemma step_adds_tensor {O} (streamer : TokenStreamer O) (do_sample : bool)
    (temperature : F) (biases : list (gmap Z F)) (V : nat)
    (cell : option (list (list F))) (s : TransformersBatch.loop_state O) :
  (forall o input_ids scores kwargs,
      exists o', streamer o input_ids scores kwargs = Ok o') ->
  (forall i m, length (model_logits i m) = length i) ->
  (forall i m,
      Forall (fun rows => length (List.last rows []) = V) (model_logits i m)) ->
  TransformersBatch.cur_sequences s <> [] ->
  length biases = length (TransformersBatch.cur_sequences s) ->
  length (TransformersBatch.unfinished s)
  = length (TransformersBatch.cur_sequences s) ->
  TransformersBatch.processors s = [TransformersBatch.mkProcessor biases cell] ->
  cell = None \/ cell = Some (tensor biases V) ->
  exists (s' : TransformersBatch.loop_state O) (finished : bool),
    step (hook streamer) do_sample temperature s = Ok (s', finished) /\
    TransformersBatch.processors s'
    = [TransformersBatch.mkProcessor biases (Some (tensor biases V))] /\
    length (TransformersBatch.cur_sequences s')
    = length (TransformersBatch.cur_sequences s) /\
    length (TransformersBatch.unfinished s')
    = length (TransformersBatch.cur_sequences s) /\
    TransformersBatch.step_scores s'
    = TransformersBatch.step_scores s
      ++ [TransformersBatch.biased fadd log_softmax (tensor biases V)
            (last_logits (model_logits (TransformersBatch.cur_sequences s)
                                       (TransformersBatch.cur_attention s)))] /\
    TransformersBatch.trace s'
    = TransformersBatch.trace s
      ++ Forward (TransformersBatch.cur_sequences s)
                 (TransformersBatch.cur_attention s)
         :: match cell with Some _ => [] | None => [MakeBiasTensor V] end.
Proof.
  intros Htotal Hbatch Hshape Hne Hbiases Hunfinished Hps Hcell.
  set (raw := last_logits (model_logits (TransformersBatch.cur_sequences s)
                                        (TransformersBatch.cur_attention s))).
  assert (length raw = length (TransformersBatch.cur_sequences s)) as Hraw
    by (unfold raw, last_logits; by rewrite length_map, Hbatch).
  assert (raw <> []) as Hrawne.
  { intros Hnil. rewrite Hnil in Hraw.
    by destruct (TransformersBatch.cur_sequences s). }
  destruct (make_bias_tensor_shape biases V) as [HB HV].
  unfold TransformersBatch.decode_step. fold raw. rewrite Hps.
  cbn [TransformersBatch.apply_processors].
  rewrite (processor_call_adds_tensor biases cell _ raw V);
    [|done|congruence|by apply TransformersSpec.last_logits_shape|done].
  set (processed := TransformersBatch.biased fadd log_softmax (tensor biases V) raw).
  assert (length processed = length (TransformersBatch.cur_sequences s)) as Hproc.
  { unfold processed, TransformersBatch.biased.
    rewrite length_map, length_zip_with. lia. }
  pose proof (select_tokens_length do_sample temperature (TransformersBatch.rng s)
                processed) as Htokens.
  destruct (select_tokens argmax sample do_sample temperature
              (TransformersBatch.rng s) processed) as [tokens g].
  cbn [fst] in Htokens.
  cbn [run_criteria]. unfold criterion_call. cbn [token_streamer].
  match goal with
  | |- context [streamer ?o ?i ?x ?kw] => destruct (Htotal o i x kw) as [o' ->]
  end.
  eexists _, _. split; [reflexivity|].
  cbn [TransformersBatch.processors TransformersBatch.cur_sequences
       TransformersBatch.unfinished TransformersBatch.step_scores
       TransformersBatch.trace].
  split; [done|]. split; [rewrite !length_zip_with; lia|].
  split; [rewrite !length_zip_with; lia|]. split; [done|].
  rewrite app_nil_r. done.
Qed.

(** Once the tensor is in the cell, every later step adds that tensor
    and builds nothing. *)
Lemma loop_reuses_tensor {O} (streamer : TokenStreamer O) (do_sample : bool)
    (temperature : F) (biases : list (gmap Z F)) (V max_new_tokens : nat)
    (s : TransformersBatch.loop_state O) :
  (forall o input_ids scores kwargs,
      exists o', streamer o input_ids scores kwargs = Ok o') ->
  (forall i m, length (model_logits i m) = length i) ->
  (forall i m,
      Forall (fun rows => length (List.last rows []) = V) (model_logits i m)) ->
  TransformersBatch.cur_sequences s <> [] ->
  length biases = length (TransformersBatch.cur_sequences s) ->
  length (TransformersBatch.unfinished s)
  = length (TransformersBatch.cur_sequences s) ->
  TransformersBatch.processors s
  = [TransformersBatch.mkProcessor biases (Some (tensor biases V))] ->
  exists s' : TransformersBatch.loop_state O,
    loop (hook streamer) do_sample temperature max_new_tokens s = Ok s' /\
    builds (TransformersBatch.trace s') = builds (TransformersBatch.trace s) /\
    exists more,
      raw_scores model_logits (TransformersBatch.trace s')
      = raw_scores model_logits (TransformersBatch.trace s) ++ more /\
      TransformersBatch.step_scores s'
      = TransformersBatch.step_scores s
        ++ map (TransformersBatch.biased fadd log_softmax (tensor biases V)) more.
Proof.
  intros Htotal Hbatch Hshape. revert s.
  induction max_new_tokens as [|remaining IH];
    intros s Hne Hbiases Hunfinished Hps.
  - exists s. split; [done|]. split; [done|]. exists []. by rewrite !app_nil_r.
  - destruct (step_adds_tensor streamer do_sample temperature biases V
                (Some (tensor biases V)) s Htotal Hbatch Hshape Hne Hbiases
                Hunfinished Hps (or_intror eq_refl))
      as (s1 & finished & Hstep & H1 & Hlen & Hunf & H2 & H3).
    assert (builds (TransformersBatch.trace s1)
            = builds (TransformersBatch.trace s)) as Hb.
    { rewrite H3, TransformersSpec.builds_step by done. by rewrite app_nil_r. }
    assert (raw_scores model_logits (TransformersBatch.trace s1)
            = raw_scores model_logits (TransformersBatch.trace s)
              ++ [last_logits (model_logits (TransformersBatch.cur_sequences s)
                                            (TransformersBatch.cur_attention s))])
      as Hr by (rewrite H3; by apply TransformersSpec.raw_scores_step).
    cbn [TransformersBatch.decode]. rewrite Hstep. destruct finished.
    + exists s1. split; [done|]. split; [done|]. eexists. split; [exact Hr|].
      by rewrite H2.
    + destruct (IH s1) as (s' & Hloop & Hb' & more & Hr' & Hs');
        [intros Hnil; rewrite Hnil in Hlen;
         by destruct (TransformersBatch.cur_sequences s)
        |congruence|congruence|done|].
      exists s'. split; [done|]. split; [congruence|].
      exists (last_logits (model_logits (TransformersBatch.cur_sequences s)
                                        (TransformersBatch.cur_attention s))
              :: more).
      split.
      * rewrite Hr', Hr. by rewrite <- app_assoc.
      * rewrite Hs', H2. by rewrite <- app_assoc.
Qed.

(** What a step that returns has done to the processors, the scores and
    the trace. *)
Lemma batch_step_returns {O} (criteria : list (StoppingCriterion O))
    (do_sample : bool) (temperature : F) (s s' : TransformersBatch.loop_state O)
    (finished : bool) :
  step criteria do_sample temperature s = Ok (s', finished) ->
  exists ps sc built,
    TransformersBatch.apply_processors zero fadd log_softmax
      (TransformersBatch.processors s) (TransformersBatch.cur_sequences s)
      (last_logits (model_logits (TransformersBatch.cur_sequences s)
                                 (TransformersBatch.cur_attention s)))
    = (ps, Ok sc, built) /\
    TransformersBatch.processors s' = ps /\
    TransformersBatch.step_scores s' = TransformersBatch.step_scores s ++ [sc] /\
    TransformersBatch.trace s'
    = TransformersBatch.trace s
      ++ Forward (TransformersBatch.cur_sequences s)
                 (TransformersBatch.cur_attention s) :: built.
Proof.
  unfold TransformersBatch.decode_step.
  destruct (TransformersBatch.apply_processors _ _ _ _ _ _)
    as [[ps [sc|e]] built]; [|done].
  destruct (select_tokens _ _ _ _ _ _) as [tokens g].
  destruct (run_criteria _ _ _ _) as [[o stop]|e]; [|done].
  intros [= <- <-]. by exists ps, sc, built.
Qed.

(** Without a logits processor the steps keep the model's raw scores. *)
Lemma loop_keeps_raw_scores {O} (criteria : list (StoppingCriterion O))
    (do_sample : bool) (temperature : F) (max_new_tokens : nat)
    (s s' : TransformersBatch.loop_state O) :
  TransformersBatch.processors s = [] ->
  loop criteria do_sample temperature max_new_tokens s = Ok s' ->
  builds (TransformersBatch.trace s') = builds (TransformersBatch.trace s) /\
  exists more,
    raw_scores model_logits (TransformersBatch.trace s')
    = raw_scores model_logits (TransformersBatch.trace s) ++ more /\
    TransformersBatch.step_scores s' = TransformersBatch.step_scores s ++ more.
Proof.
  revert s. induction max_new_tokens as [|remaining IH]; intros s Hps;
    cbn [TransformersBatch.decode].
  - intros [= <-]. split; [done|]. exists []. by rewrite !app_nil_r.
  - destruct (step criteria do_sample temperature s) as [[s1 finished]|e] eqn:Hstep;
      [|done].
    destruct (batch_step_returns _ _ _ _ _ _ Hstep)
      as (ps & sc & built & Hcall & H1 & H2 & H3).
    rewrite Hps in Hcall. cbn [TransformersBatch.apply_processors] in Hcall.
    injection Hcall as <- <- <-.
    assert (builds (TransformersBatch.trace s1)
            = builds (TransformersBatch.trace s)) as Hb.
    { rewrite H3, TransformersSpec.builds_step by done. by rewrite app_nil_r. }
    assert (raw_scores model_logits (TransformersBatch.trace s1)
            = raw_scores model_logits (TransformersBatch.trace s)
              ++ [last_logits (model_logits (TransformersBatch.cur_sequences s)
                                            (TransformersBatch.cur_attention s))])
      as Hr by (rewrite H3; by apply TransformersSpec.raw_scores_step).
    destruct finished.
    + intros [= <-]. split; [done|]. eexists. split; [exact Hr|]. by rewrite H2.
    + intros Hloop. destruct (IH s1 H1 Hloop) as (Hb' & more & Hr' & Hs').
      split; [congruence|].
      exists (last_logits (model_logits (TransformersBatch.cur_sequences s)
                                        (TransformersBatch.cur_attention s))
              :: more).
      split.
      * rewrite Hr', Hr. by rewrite <- app_assoc.
      * rewrite Hs', H2. by rewrite <- app_assoc.
Qed.

(** Without a logits processor, a step whose streamer does not raise
    returns, and has appended the model's raw scores. *)
Lemma step_without_processor {O} (streamer : TokenStreamer O) (do_sample : bool)
    (temperature : F) (s : TransformersBatch.loop_state O) :
  (forall o input_ids scores kwargs,
      exists o', streamer o input_ids scores kwargs = Ok o') ->
  TransformersBatch.processors s = [] ->
  exists (s' : TransformersBatch.loop_state O) (finished : bool),
    step (hook streamer) do_sample temperature s = Ok (s', finished) /\
    TransformersBatch.processors s' = [].
Proof.
  intros Htotal Hps. unfold TransformersBatch.decode_step. rewrite Hps.
  cbn [TransformersBatch.apply_processors].
  destruct (select_tokens _ _ _ _ _ _) as [tokens g].
  cbn [run_criteria]. unfold criterion_call. cbn [token_streamer].
  match goal with
  | |- context [streamer ?o ?i ?x ?kw] => destruct (Htotal o i x kw) as [o' ->]
  end.
  eexists _, _. split; [reflexivity|]. done.
Qed.

(** Without a logits processor, a loop whose streamer does not raise
    returns, with one more step when at least one token is asked for. *)
Lemma loop_without_processor_returns {O} (streamer : TokenStreamer O)
    (do_sample : bool) (temperature : F) (max_new_tokens : nat)
    (s : TransformersBatch.loop_state O) :
  (forall o input_ids scores kwargs,
      exists o', streamer o input_ids scores kwargs = Ok o') ->
  TransformersBatch.processors s = [] ->
  exists s' : TransformersBatch.loop_state O,
    loop (hook streamer) do_sample temperature max_new_tokens s = Ok s' /\
    ((0 < max_new_tokens)%nat ->
     (length (TransformersBatch.step_scores s)
      < length (TransformersBatch.step_scores s'))%nat).
Proof.
  intros Htotal. revert s.
  induction max_new_tokens as [|remaining IH]; intros s Hps.
  - exists s. split; [done|]. lia.
  - destruct (step_without_processor streamer do_sample temperature s Htotal Hps)
      as (s1 & finished & Hstep & H1).
    destruct (batch_step_returns _ _ _ _ _ _ Hstep)
      as (ps & sc & built & _ & _ & H2 & _).
    cbn [TransformersBatch.decode]. rewrite Hstep. destruct finished.
    + exists s1. split; [done|]. intros _. rewrite H2, length_app. simpl. lia.
    + destruct (IH s1 H1) as (s' & Hloop & Hlen).
      exists s'. split; [done|]. intros _.
      destruct (loop_keeps_raw_scores _ _ _ _ _ _ H1 Hloop)
        as (_ & more & _ & Hs').
      rewrite Hs', H2, !length_app. simpl. lia.
Qed.

(** C10, as the code has it: the test of line 90 is on the number of
    bias sets that [generate] is given, one for every sequence of the
    batch.  The processor is left out when that list is empty, that is,
    has no bias set at all: a [generate] call that returns has then built
    no tensor and kept the model's raw scores at every step, and with
    well-formed inputs and a streamer that does not raise it does return,
    with at least one step when at least one new token is asked for.  For
    every list that is not empty one processor is installed, whether or
    not any token is biased: a [generate] call with one bias set per
    sequence, for at least one new token, with a model that scores every
    sequence of the batch over [V] tokens and a streamer that does not
    raise, returns, has built the tensor once, and the scores of every
    step are the [log_softmax] of the model's raw scores plus that
    tensor, which is all zeros when no bias set biases a token. *)
Theorem logits_processor_is_installed_for_every_bias_set :
  (TransformersBatch.logits_processors (F:=F) [] = []) /\
  (forall (O : Type) (streamer : TokenStreamer O) (o : O) (g : G)
          (input_ids attention_mask : ids) (temperature : F)
          (max_new_tokens : nat) (out : generation O),
      TransformersBatch.generate zero fadd positive log_softmax model_logits
        eos_token_id argmax sample input_ids attention_mask temperature
        max_new_tokens [] streamer o g = Ok out ->
      builds (calls out) = [] /\
      scores (returned out) = raw_scores model_logits (calls out)) /\
  (forall (O : Type) (streamer : TokenStreamer O) (o : O) (g : G)
          (input_ids attention_mask : ids) (temperature : F)
          (max_new_tokens : nat),
      rectangular input_ids = true ->
      rectangular attention_mask = true ->
      (forall o input_ids scores kwargs,
          exists o', streamer o input_ids scores kwargs = Ok o') ->
      exists out : generation O,
        TransformersBatch.generate zero fadd positive log_softmax model_logits
          eos_token_id argmax sample input_ids attention_mask temperature
          max_new_tokens [] streamer o g = Ok out /\
        builds (calls out) = [] /\
        scores (returned out) = raw_scores model_logits (calls out) /\
        ((0 < max_new_tokens)%nat -> scores (returned out) <> [])) /\
  (forall biases : list (gmap Z F),
      biases <> [] ->
      TransformersBatch.logits_processors biases
      = [TransformersBatch.mkProcessor biases None]) /\
  (forall (O : Type) (streamer : TokenStreamer O) (o : O) (g : G)
          (input_ids attention_mask : ids) (temperature : F)
          (max_new_tokens : nat) (biases : list (gmap Z F)) (V : nat),
      (0 < max_new_tokens)%nat ->
      input_ids <> [] ->
      rectangular input_ids = true ->
      rectangular attention_mask = true ->
      length biases = length input_ids ->
      (forall i m, length (model_logits i m) = length i) ->
      (forall i m,
          Forall (fun rows => length (List.last rows []) = V) (model_logits i m)) ->
      (forall o input_ids scores kwargs,
          exists o', streamer o input_ids scores kwargs = Ok o') ->
      exists out : generation O,
        TransformersBatch.generate zero fadd positive log_softmax model_logits
          eos_token_id argmax sample input_ids attention_mask temperature
          max_new_tokens biases streamer o g = Ok out /\
        builds (calls out) = [MakeBiasTensor V] /\
        scores (returned out) <> [] /\
        scores (returned out)
        = map (TransformersBatch.biased fadd log_softmax (tensor biases V))
              (raw_scores model_logits (calls out))) /\
  (forall (biases : list (gmap Z F)) (V : nat),
      Forall (fun bias => bias = ∅) biases ->
      tensor biases V = map (fun _ => replicate V zero) biases).
Proof.
  assert (forall (O : Type) (streamer : TokenStreamer O) (o : O) (g : G)
                 (input_ids attention_mask : ids) (temperature : F)
                 (max_new_tokens : nat) (out : generation O),
             TransformersBatch.generate zero fadd positive log_softmax
               model_logits eos_token_id argmax sample input_ids attention_mask
               temperature max_new_tokens [] streamer o g = Ok out ->
             builds (calls out) = [] /\
             scores (returned out) = raw_scores model_logits (calls out))
    as Hraw.
  { intros O streamer o g input_ids attention_mask temperature max_new_tokens out.
    unfold TransformersBatch.generate, TransformersBatch.model_generate.
    cbn [TransformersBatch.logits_processors length Nat.eqb].
    destruct (torch_tensor input_ids) as [input_ids'|e]; [|done].
    destruct (torch_tensor attention_mask) as [attention_mask'|e]; [|done].
    destruct (loop _ _ _ _ _) as [s'|e] eqn:Hloop; [|done].
    intros [= <-]. cbn [calls returned scores].
    apply loop_keeps_raw_scores in Hloop as (Hb & more & Hr & Hs); [|done].
    cbn [TransformersBatch.trace TransformersBatch.step_scores] in Hb, Hr, Hs.
    split; [exact Hb|]. by rewrite Hr, Hs. }
  split; [done|]. split; [exact Hraw|]. split; [|split; [|split]].
  - intros O streamer o g input_ids attention_mask temperature max_new_tokens
      Hrect Hmask Htotal.
    destruct (TransformersBatch.generate zero fadd positive log_softmax
                model_logits eos_token_id argmax sample input_ids attention_mask
                temperature max_new_tokens [] streamer o g) as [out|e] eqn:Hrun.
    + exists out. split; [done|].
      destruct (Hraw _ _ _ _ _ _ _ _ _ Hrun) as [Hb Hs].
      split; [done|]. split; [done|]. intros HN. revert Hrun.
      unfold TransformersBatch.generate, torch_tensor,
        TransformersBatch.model_generate.
      rewrite Hrect, Hmask.
      cbn [TransformersBatch.logits_processors length Nat.eqb].
      match goal with
      | |- context [loop ?c ?d ?t ?n ?s0] =>
          destruct (loop_without_processor_returns streamer d t n s0 Htotal eq_refl)
            as (s' & -> & Hlen)
      end.
      intros [= <-]. cbn [returned scores].
      specialize (Hlen HN). cbn [TransformersBatch.step_scores length] in Hlen.
      intros Hnil. rewrite Hnil in Hlen. simpl in Hlen. lia.
    + exfalso. revert Hrun.
      unfold TransformersBatch.generate, torch_tensor,
        TransformersBatch.model_generate.
      rewrite Hrect, Hmask.
      cbn [TransformersBatch.logits_processors length Nat.eqb].
      match goal with
      | |- context [loop ?c ?d ?t ?n ?s0] =>
          destruct (loop_without_processor_returns streamer d t n s0 Htotal eq_refl)
            as (s' & -> & _)
      end.
      done.
  - intros [|bias biases] Hne; [done|]. done.
  - intros O streamer o g input_ids attention_mask temperature max_new_tokens
      biases V HN Hne Hrect Hmask Hbiases Hbatch Hshape Htotal.
    unfold TransformersBatch.generate, torch_tensor,
      TransformersBatch.model_generate.
    rewrite Hrect, Hmask.
    assert (TransformersBatch.logits_processors biases
            = [TransformersBatch.mkProcessor biases None]) as ->.
    { destruct biases; [by destruct input_ids|done]. }
    destruct max_new_tokens as [|remaining]; [lia|].
    set (s0 := TransformersBatch.mkLoop input_ids attention_mask
                 (map (fun _ => true) input_ids) []
                 [TransformersBatch.mkProcessor biases None] o g []).
    destruct (step_adds_tensor streamer (positive temperature) temperature biases
                V None s0 Htotal Hbatch Hshape Hne Hbiases)
      as (s1 & finished & Hstep & H1 & Hlen & Hunf & H2 & H3);
      [by cbn; rewrite length_map|done|by left|].
    cbn [s0 TransformersBatch.step_scores TransformersBatch.trace
         TransformersBatch.cur_sequences TransformersBatch.cur_attention app]
      in H2, H3, Hlen, Hunf.
    cbn [TransformersBatch.decode]. rewrite Hstep.
    assert (builds (TransformersBatch.trace s1) = [MakeBiasTensor V]) as Hb
      by by rewrite H3.
    assert (raw_scores model_logits (TransformersBatch.trace s1)
            = [last_logits (model_logits input_ids attention_mask)]) as Hr
      by by rewrite H3.
    destruct finished.
    + eexists. split; [reflexivity|]. cbn [calls returned scores].
      split; [done|]. rewrite H2, Hr. by split.
    + destruct (loop_reuses_tensor streamer (positive temperature) temperature
                  biases V remaining s1 Htotal Hbatch Hshape)
        as (s' & -> & Hb' & more & Hr' & Hs');
        [intros Hnil; rewrite Hnil in Hlen; by destruct input_ids
        |congruence|congruence|done|].
      eexists. split; [reflexivity|]. cbn [calls returned scores].
      split; [congruence|]. rewrite Hs', Hr', H2, Hr. split; [done|].
      by rewrite map_app.
  - apply make_bias_tensor_unbiased.
Qed.

End Backend.

(** *** On a concrete model *)

(** C10, refuted as stated: on a batch of two sequences with an empty
    bias set each, the processor is installed all the same, a tensor is
    built, and the scores of the steps are the normalized ones, not the
    model's raw scores, which the same call keeps when it is given no
    bias set at all. *)
Lemma unbiased_batch_is_processed_all_the_same :
  Forall (fun bias => bias = ∅) BatchExamples.unbiased /\
  TransformersBatch.logits_processors BatchExamples.unbiased
  = [TransformersBatch.mkProcessor BatchExamples.unbiased None] /\
  (exists out : generation nat,
      BatchExamples.toy_generate [[0]; [1]] [[1]; [1]] 0 3%nat
        BatchExamples.unbiased Examples.counting_streamer 0%nat 7 = Ok out /\
      builds (calls out) = [MakeBiasTensor 3] /\
      raw_scores Examples.toy_logits (calls out)
      = [[[0; 5; 0]; [0; 0; 5]]; [[0; 0; 5]; [0; 0; 0]]] /\
      scores (returned out)
      = [[[-5; 0; -5]; [-5; -5; 0]]; [[-5; -5; 0]; [0; 0; 0]]] /\
      scores (returned out) <> raw_scores Examples.toy_logits (calls out)) /\
  (exists out : generation nat,
      BatchExamples.toy_generate [[0]; [1]] [[1]; [1]] 0 3%nat []
        Examples.counting_streamer 0%nat 7 = Ok out /\
      builds (calls out) = [] /\
      scores (returned out)
      = [[[0; 5; 0]; [0; 0; 5]]; [[0; 0; 5]; [0; 0; 0]]]).
Proof.
  split; [by repeat constructor|]. split; [done|]. split.
  - eexists. split; [by vm_compute|]. by repeat split.
  - eexists. split; [by vm_compute|]. by split.
Qed.

Lemma logits_processor_is_installed_for_every_bias_set_witness :
  (exists out : generation nat,
      BatchExamples.toy_generate [[0]; [1]] [[1]; [1]] 0 3%nat []
        Examples.counting_streamer 0%nat 7 = Ok out /\
      builds (calls out) = [] /\
      scores (returned out) = raw_scores Examples.toy_logits (calls out) /\
      scores (returned out) <> []) /\
  TransformersBatch.logits_processors BatchExamples.first_biased
  = [TransformersBatch.mkProcessor BatchExamples.first_biased None] /\
  (exists out : generation nat,
      BatchExamples.toy_generate [[0]; [1]] [[1]; [1]] 0 3%nat
        BatchExamples.first_biased Examples.counting_streamer 0%nat 7 = Ok out /\
      builds (calls out) = [MakeBiasTensor 3] /\
      scores (returned out) <> [] /\
      scores (returned out)
      = map (TransformersBatch.biased Z.add Examples.toy_normalize
               (TransformersBatch.make_bias_tensor 0 BatchExamples.first_biased 3))
            (raw_scores Examples.toy_logits (calls out))) /\
  TransformersBatch.make_bias_tensor 0 BatchExamples.unbiased 3
  = map (fun _ => replicate 3 0) BatchExamples.unbiased.
Proof.
  destruct (logits_processor_is_installed_for_every_bias_set 0 Z.add
              (fun t => 0 <? t) Examples.toy_normalize Examples.toy_logits 2
              Examples.toy_argmax Examples.toy_sample)
    as (_ & Hraw & Hreturns & Hone & Hbiased & Hzero).
  split; [|split; [by apply Hone|split]].
  - unfold BatchExamples.toy_generate.
    destruct (Hreturns nat Examples.counting_streamer 0%nat 7 [[0]; [1]]
                [[1]; [1]] 0 3%nat eq_refl eq_refl
                TransformersSpec.counting_streamer_returns)
      as (out & Hrun & _ & _ & Hsome).
    exists out. split; [exact Hrun|].
    destruct (Hraw nat Examples.counting_streamer 0%nat 7 [[0]; [1]] [[1]; [1]] 0
                3%nat out Hrun) as [Hb Hs].
    split; [exact Hb|]. split; [exact Hs|]. apply Hsome. lia.
  - unfold BatchExamples.toy_generate.
    apply (Hbiased nat Examples.counting_streamer 0%nat 7 [[0]; [1]] [[1]; [1]] 0
             3%nat BatchExamples.first_biased 3%nat).
    + lia.
    + discriminate.
    + reflexivity.
    + reflexivity.
    + reflexivity.
    + apply TransformersSpec.toy_logits_batch.
    + apply TransformersSpec.toy_logits_vocabulary.
    + apply TransformersSpec.counting_streamer_returns.
  - apply Hzero. by repeat constructor.
Defined.

End TransformersBatchSpec.
